(** * Soil monitor: ingestion, storage and aggregation layer of [app.py]

    A shallow embedding of the data path of the Flask application:
    [validate_temp], [TemperatureDataManager] ([add_reading],
    [_format_timestamp], [get_recent_readings], [get_statistics]) and the
    routes [submit] and [get_debug_info], followed by the properties of
    that code.

    Conventions of the embedding.
    - Python exceptions are values of [exn]; a computation that may raise has
      type [outcome A]; a method that also reads or writes the manager's
      cache or the SQLite table has type [M A] (state passing).
    - A JSON payload is a value of [json].  A Python [float] is a [pyfloat]:
      nan, an infinity, or a finite value carried as the exact rational it
      denotes.  REAL arithmetic ([statistics.mean], [round]) is carried out
      on those rationals; rounding to binary64 is outside the model.
    - A [datetime] (the value of [datetime.now()], the text
      [%Y-%m-%d %H:%M:%S] kept in the [timestamp] column) is a whole number
      of seconds on the server's local time line, counted from
      0001-01-01 00:00:00; the text form orders as the second count does
      (years of four digits; [strftime] may not pad earlier ones).
      A reading of [datetime.now()] is taken in whole seconds: rounded
      down where it is formatted, up where it bounds a window.  A reading
      of [time.time()] is a rational number of seconds.
    - The two parsers of the Python runtime that the code calls,
      [float(str)] and [datetime.fromisoformat], are parameters of the
      development.
    - Whether SQLite can be reached is an input of every operation
      ([db_status]): each operation opens its own connection.
    - Requests are handled one at a time: an operation runs to its end
      before the next one starts. *)

From Stdlib Require Import ZArith QArith Qround Qabs Lqa.
From Stdlib Require Import String Ascii List Bool Lia.
From stdpp Require Import gmap strings pretty sorting.

Set Warnings "-register-all".
Local Open Scope Z_scope.

(** ** Exceptions and the two monads *)

Inductive exn : Type :=
| TypeError
| ValueError
| OverflowError
| AttributeError
| StopIteration
| OperationalError     (* sqlite3: database unreachable or locked *)
| InterfaceError.      (* sqlite3: a bound parameter has an unsupported type
                          (ProgrammingError from Python 3.11 on) *)

Inductive outcome (A : Type) : Type :=
| Return (a : A)
| Raise (e : exn).
Arguments Return {A} a.
Arguments Raise {A} e.

Global Instance outcome_ret : MRet outcome := @Return.
Global Instance outcome_bind : MBind outcome := λ A B f c,
  match c with
  | Return a => f a
  | Raise e => Raise e
  end.

(** [try: body except <handled>: handler] *)
Definition catch {A} (body : outcome A) (handler : exn → outcome A) : outcome A :=
  match body with
  | Return a => Return a
  | Raise e => handler e
  end.

Definition raised {A} (c : outcome A) : bool :=
  match c with Return _ => false | Raise _ => true end.

(** ** Python floats and JSON values *)

Inductive pyfloat : Type :=
| FNaN
| FInf (negative : bool)
| FFinite (q : Q).

Inductive json : Type :=
| JNull
| JBool (b : bool)
| JInt (z : Z)
| JFloat (f : pyfloat)
| JStr (s : string)
| JList (xs : list json)
| JDict (kvs : list (string * json)).

(** Truth value of an object ([if x], [not x]). *)
Definition truthy (v : json) : bool :=
  match v with
  | JNull => false
  | JBool b => b
  | JInt z => negb (z =? 0)
  | JFloat (FFinite q) => negb (Qeq_bool q 0)
  | JFloat _ => true
  | JStr s => negb (String.eqb s "")
  | JList xs => match xs with [] => false | _ => true end
  | JDict kvs => match kvs with [] => false | _ => true end
  end.

(** [v == s] for a string literal [s]: only a [str] equals a [str]. *)
Definition eq_str (v : json) (s : string) : bool :=
  match v with
  | JStr t => String.eqb t s
  | _ => false
  end.

Definition is_none {A} (o : option A) : bool :=
  match o with None => true | Some _ => false end.

Fixpoint assoc (k : string) (kvs : list (string * json)) : option json :=
  match kvs with
  | [] => None
  | (k', v) :: rest => if String.eqb k' k then Some v else assoc k rest
  end.

(** [d.get(k)]: the value, [None] when the key is missing; an object that
    is no dict has no attribute [get]. *)
Definition py_get (d : json) (k : string) : outcome json :=
  match d with
  | JDict kvs => Return (default JNull (assoc k kvs))
  | _ => Raise AttributeError
  end.

(** ** [float(val)] *)

(** Nearest binary64 of an integer, ties to even (53 significant bits). *)
Definition round_to_double (z : Z) : Z :=
  let a := Z.abs z in
  let bits := Z.log2 a + 1 in
  if bits <=? 53 then z
  else
    let sh := bits - 53 in
    let m := Z.shiftr a sh in
    let r := a - Z.shiftl m sh in
    let half := Z.shiftl 1 (sh - 1) in
    let m' := if (half <? r) || ((r =? half) && Z.odd m) then m + 1 else m in
    Z.sgn z * Z.shiftl m' sh.

(** [float(int)]: "int too large to convert to float" from 2^1024 on. *)
Definition float_of_int (z : Z) : outcome pyfloat :=
  let r := round_to_double z in
  if 2 ^ 1024 <=? Z.abs r then Raise OverflowError
  else Return (FFinite (inject_Z r)).

Section Runtime.

(** [float(str)]: [None] stands for [ValueError]. *)
Variable float_of_str : string → option pyfloat.

(** [datetime.fromisoformat(s)], read to the second: [None] stands for
    [ValueError]. *)
Variable fromisoformat : string → option Z.

Definition py_float (val : json) : outcome pyfloat :=
  match val with
  | JNull => Raise TypeError
  | JBool b => Return (FFinite (if b then 1 else 0)%Q)
  | JInt z => float_of_int z
  | JFloat f => Return f
  | JStr s =>
      match float_of_str s with
      | Some f => Return f
      | None => Raise ValueError
      end
  | JList _ | JDict _ => Raise TypeError
  end.

(** [x < y] on rationals. *)
Definition Qlt_bool (x y : Q) : bool := negb (Qle_bool y x).

(** [-10 <= v <= 80] *)
Definition in_valid_range (q : Q) : bool :=
  Qle_bool (-10) q && Qle_bool q 80.

(** [validate_temp(val)].  The value handed back is a float that passed
    [-10 <= v <= 80], hence finite: it is returned as its rational. *)
Definition validate_temp (val : json) : outcome (option Q) :=
  catch
    (v ← py_float val;
     match v with
     | FFinite q => if in_valid_range q then Return (Some q) else Return None
     | FNaN | FInf _ => Return None   (* a comparison with nan is False; inf is outside *)
     end)
    (λ e, match e with
          | TypeError | ValueError => Return None
          | _ => Raise e
          end).

(** ** The readings table *)

(** A value as SQLite keeps it.  Column affinity conversions are not
    modelled: a bound value is kept as bound (NULL stays NULL). *)
Inductive sqlval : Type :=
| SNull
| SInt (z : Z)
| SReal (f : pyfloat)
| SText (s : string).

Definition in_int64 (z : Z) : bool := (- 2 ^ 63 <=? z) && (z <? 2 ^ 63).

(** Binding a Python object as a statement parameter. *)
Definition bind (v : json) : outcome sqlval :=
  match v with
  | JNull => Return SNull
  | JBool b => Return (SInt (if b then 1 else 0))
  | JInt z => if in_int64 z then Return (SInt z) else Raise OverflowError
  | JFloat FNaN => Return SNull
  | JFloat f => Return (SReal f)
  | JStr s => Return (SText s)
  | JList _ | JDict _ => Raise InterfaceError
  end.

Definition is_null (v : sqlval) : bool :=
  match v with SNull => true | _ => false end.

(** One row of [temperature_readings] ([sensor_status] is never written
    nor read by this code and is left out; the BOOLEAN columns hold the
    Python [True]/[False] bound by [add_reading], or NULL). *)
Record row : Type := {
  r_id : Z;
  r_timestamp : Z;
  r_t1 : option Q;
  r_t2 : option Q;
  r_t3 : option Q;
  r_battery : sqlval;
  r_battery_status : sqlval;
  r_wake_cause : sqlval;
  r_wake_cause_name : sqlval;
  r_reset_reason : sqlval;
  r_reset_reason_name : sqlval;
  r_boot_count : sqlval;
  r_last_boot_count : sqlval;
  r_probe_mode_completed : option bool;
  r_should_run_probe : option bool;
  r_probe_done_this_cycle : option bool;
  r_rtc_sleep_armed : option bool;
  r_unsafe_wake : option bool
}.

(** [ORDER BY timestamp ASC]: rows of equal timestamp stay in insertion
    (rowid) order, the order of a scan of [idx_timestamp]. *)
Fixpoint insert_by_timestamp (r : row) (l : list row) : list row :=
  match l with
  | [] => [r]
  | x :: l' =>
      if r_timestamp r <=? r_timestamp x then r :: l
      else x :: insert_by_timestamp r l'
  end.

Definition order_by_timestamp_asc (l : list row) : list row :=
  foldr insert_by_timestamp [] l.

(** [ORDER BY timestamp DESC]: the same index scanned backwards. *)
Definition order_by_timestamp_desc (l : list row) : list row :=
  reverse (order_by_timestamp_asc l).

(** [LIMIT n]: a negative [n] means no limit. *)
Definition sql_limit (n : Z) (l : list row) : list row :=
  if n <? 0 then l else take (Z.to_nat n) l.

(** ** Dates *)

(** Seconds are counted from 0001-01-01 00:00:00, the least [datetime];
    the greatest is 9999-12-31 23:59:59. *)
Definition datetime_end : Z := 3652059 * 86400.

(** [timedelta(hours=h)]: the day count must stay within 999999999. *)
Definition timedelta_hours (h : Z) : outcome Z :=
  let secs := h * 3600 in
  let days := secs / 86400 in
  if (-999999999 <=? days) && (days <=? 999999999) then Return secs
  else Raise OverflowError.

(** [dt - delta]: "date value out of range" outside years 1..9999. *)
Definition datetime_sub (dt delta : Z) : outcome Z :=
  let r := dt - delta in
  if (0 <=? r) && (r <? datetime_end) then Return r
  else Raise OverflowError.

(** [strftime('%H:%M')] *)
Definition hhmm (t : Z) : Z * Z := ((t / 3600) mod 24, (t / 60) mod 60).

(** [s.replace('T', ' ')] *)
Fixpoint replace_T (s : string) : string :=
  match s with
  | EmptyString => EmptyString
  | String c s' =>
      String (if Ascii.eqb c "T" then " "%char else c) (replace_T s')
  end.

(** ** The manager's state *)

(** One element of the list [get_recent_readings] returns. *)
Record reading : Type := {
  v_time : Z * Z;
  v_ts : Z;
  v_t1 : option Q;
  v_t2 : option Q;
  v_t3 : option Q;
  v_battery : sqlval;
  v_battery_status : sqlval
}.

(** [self.cache] and the table behind [DB_PATH]. *)
Record state : Type := {
  table : list row;
  cache : gmap string (list reading * Q)
}.

Definition M (A : Type) : Type := state → outcome A * state.

Global Instance M_ret : MRet M := λ A a s, (Return a, s).
Global Instance M_bind : MBind M := λ A B f c s,
  match c s with
  | (Return a, s') => f a s'
  | (Raise e, s') => (Raise e, s')
  end.

Definition lift {A} (c : outcome A) : M A := λ s, (c, s).

Definition catchM {A} (body : M A) (handler : exn → M A) : M A := λ s,
  match body s with
  | (Return a, s') => (Return a, s')
  | (Raise e, s') => handler e s'
  end.

Definition get_cache : M (gmap string (list reading * Q)) :=
  λ s, (Return (cache s), s).

Definition cache_put (k : string) (v : list reading * Q) : M unit :=
  λ s, (Return tt, {| table := table s; cache := <[k := v]> (cache s) |}).

(** [self.cache.clear()] *)
Definition cache_clear : M unit :=
  λ s, (Return tt, {| table := table s; cache := ∅ |}).

(** ** Connections *)

(** What SQLite does during one operation: it works, or the connection,
    the statement or the commit raises [sqlite3.OperationalError]. *)
Inductive db_status : Type :=
| DbUp
| ConnectFails
| ExecuteFails
| CommitFails.

(** A connection holds the rows inserted in its open transaction. *)
Record connection : Type := { pending : list row }.

Definition get_db_connection (db : db_status) : M connection := λ s,
  match db with
  | ConnectFails => (Raise OperationalError, s)
  | _ => (Return {| pending := [] |}, s)
  end.

(** [cursor.execute(SELECT ...)] followed by [fetchall()] *)
Definition execute_select (db : db_status) (q : list row → list row)
  : M (list row) := λ s,
  match db with
  | ExecuteFails => (Raise OperationalError, s)
  | _ => (Return (q (table s)), s)
  end.

(** [conn.commit()]: the pending rows reach the table. *)
Definition commit (db : db_status) (conn : connection) : M unit := λ s,
  match db with
  | CommitFails => (Raise OperationalError, s)
  | _ => (Return tt, {| table := table s ++ pending conn; cache := cache s |})
  end.

(** [conn.close()] *)
Definition close (conn : connection) : M unit := mret tt.

(** ** [TemperatureDataManager] *)

Definition cache_timeout : Q := 60.

(** [_format_timestamp(timestamp)]; [now] is [datetime.now()].  The
    attribute error of [timestamp.replace] on an object that is no [str]
    is raised inside the [try]. *)
Definition _format_timestamp (now : Z) (timestamp : json) : outcome Z :=
  if negb (truthy timestamp) || eq_str timestamp "null" then Return now
  else
    catch
      (s ← match timestamp with
           | JStr s => Return (replace_T s)
           | _ => Raise AttributeError
           end;
       match fromisoformat s with
       | Some dt => Return dt
       | None => Raise ValueError
       end)
      (λ _, Return now).

(** [debug_data.get(k) if debug_data else None] *)
Definition debug_field (debug_data : json) (k : string) : outcome json :=
  if truthy debug_data then py_get debug_data k else Return JNull.

(** [debug_data.get(k) == 'true' if debug_data else None] *)
Definition debug_flag (debug_data : json) (k : string) : outcome (option bool) :=
  if truthy debug_data then
    v ← py_get debug_data k; Return (Some (eq_str v "true"))
  else Return None.

(** [cursor.execute(INSERT ...)]: the parameters are bound, then the
    statement runs in the connection's transaction.  The id is the next of
    the AUTOINCREMENT sequence (no row is ever deleted). *)
Definition execute_insert (db : db_status) (conn : connection)
    (timestamp : Z) (t1 t2 t3 : option Q) (battery battery_status : json)
    (wake_cause wake_cause_name reset_reason reset_reason_name
     boot_count last_boot_count : json)
    (probe_mode_completed should_run_probe probe_done_this_cycle
     rtc_sleep_armed unsafe_wake : option bool) : M connection :=
  b ← lift (bind battery);
  bs ← lift (bind battery_status);
  wc ← lift (bind wake_cause);
  wcn ← lift (bind wake_cause_name);
  rr ← lift (bind reset_reason);
  rrn ← lift (bind reset_reason_name);
  bc ← lift (bind boot_count);
  lbc ← lift (bind last_boot_count);
  (λ s,
    match db with
    | ExecuteFails => (Raise OperationalError, s)
    | _ =>
        let r := {| r_id := Z.of_nat (length (table s)) + 1;
                    r_timestamp := timestamp;
                    r_t1 := t1; r_t2 := t2; r_t3 := t3;
                    r_battery := b; r_battery_status := bs;
                    r_wake_cause := wc; r_wake_cause_name := wcn;
                    r_reset_reason := rr; r_reset_reason_name := rrn;
                    r_boot_count := bc; r_last_boot_count := lbc;
                    r_probe_mode_completed := probe_mode_completed;
                    r_should_run_probe := should_run_probe;
                    r_probe_done_this_cycle := probe_done_this_cycle;
                    r_rtc_sleep_armed := rtc_sleep_armed;
                    r_unsafe_wake := unsafe_wake |} in
        (Return {| pending := pending conn ++ [r] |}, s)
    end) : M connection.

(** [add_reading(t1, t2, t3, battery, battery_status, timestamp, debug_data)] *)
Definition add_reading (db : db_status) (now : Z) (t1 t2 t3 : option Q)
    (battery battery_status timestamp debug_data : json) : M unit :=
  conn ← get_db_connection db;
  wake_cause ← lift (debug_field debug_data "wake_cause");
  wake_cause_name ← lift (debug_field debug_data "wake_cause_name");
  reset_reason ← lift (debug_field debug_data "reset_reason");
  reset_reason_name ← lift (debug_field debug_data "reset_reason_name");
  boot_count ← lift (debug_field debug_data "boot_count");
  last_boot_count ← lift (debug_field debug_data "last_boot_count");
  probe_mode_completed ← lift (debug_flag debug_data "probe_mode_completed");
  should_run_probe ← lift (debug_flag debug_data "should_run_probe");
  probe_done_this_cycle ← lift (debug_flag debug_data "probe_done_this_cycle");
  rtc_sleep_armed ← lift (debug_flag debug_data "rtc_sleep_armed");
  unsafe_wake ← lift (debug_flag debug_data "unsafe_wake");
  ts ← lift (_format_timestamp now timestamp);
  conn ← execute_insert db conn ts t1 t2 t3 battery battery_status
           wake_cause wake_cause_name reset_reason reset_reason_name
           boot_count last_boot_count probe_mode_completed should_run_probe
           probe_done_this_cycle rtc_sleep_armed unsafe_wake;
  _ ← commit db conn;
  _ ← close conn;
  cache_clear.

(** [f"recent_{hours}_{limit}"] *)
Definition cache_key (hours limit : Z) : string :=
  "recent_" +:+ pretty hours +:+ "_" +:+ pretty limit.

Definition to_reading (r : row) : reading :=
  {| v_time := hhmm (r_timestamp r);
     v_ts := r_timestamp r;
     v_t1 := r_t1 r; v_t2 := r_t2 r; v_t3 := r_t3 r;
     v_battery := r_battery r;
     v_battery_status := r_battery_status r |}.

(** [WHERE timestamp >= ?] *)
Definition since (cutoff : Z) (l : list row) : list row :=
  List.filter (λ r, cutoff <=? r_timestamp r) l.

(** The SELECT of [get_recent_readings]. *)
Definition select_recent (cutoff limit : Z) (tbl : list row) : list row :=
  sql_limit limit (order_by_timestamp_desc (since cutoff tbl)).

(** [datetime.now() - timedelta(hours=hours)] *)
Definition cutoff_time (now hours : Z) : outcome Z :=
  delta ← timedelta_hours hours; datetime_sub now delta.

(** [get_recent_readings(hours, limit)]; [clock] is [time.time()] and
    [now] is [datetime.now()].  Binding [limit] raises when it does not fit
    a 64-bit integer. *)
Definition get_recent_readings (db : db_status) (clock : Q) (now : Z)
    (hours limit : Z) : M (list reading) :=
  let key := cache_key hours limit in
  let query : M (list reading) :=
    conn ← get_db_connection db;
    cutoff ← lift (cutoff_time now hours);
    _ ← lift (if in_int64 limit then Return tt else Raise OverflowError);
    rows ← execute_select db (select_recent cutoff limit);
    let data := to_reading <$> rows in
    _ ← close conn;
    _ ← cache_put key (data, clock);
    mret data in
  c ← get_cache;
  match c !! key with
  | Some (data, timestamp) =>
      if Qlt_bool (clock - timestamp) cache_timeout then mret data
      else query
  | None => query
  end.

(** *** Statistics *)

Inductive sensor : Type := T1 | T2 | T3.

(** [row[0] if sensor == 't1' else row[1] if sensor == 't2' else row[2]] *)
Definition column (s : sensor) (r : row) : option Q :=
  match s with
  | T1 => r_t1 r
  | T2 => r_t2 r
  | T3 => r_t3 r
  end.

(** [min(values)]: the running least element is replaced only by a
    strictly smaller one, so the first least element is returned. *)
Fixpoint min_from (best : Q) (l : list Q) : Q :=
  match l with
  | [] => best
  | x :: l' => min_from (if Qlt_bool x best then x else best) l'
  end.

Definition py_min (values : list Q) : outcome Q :=
  match values with
  | [] => Raise ValueError
  | v :: l => Return (min_from v l)
  end.

(** [max(values)], likewise with a strictly greater one. *)
Fixpoint max_from (best : Q) (l : list Q) : Q :=
  match l with
  | [] => best
  | x :: l' => max_from (if Qlt_bool best x then x else best) l'
  end.

Definition py_max (values : list Q) : outcome Q :=
  match values with
  | [] => Raise ValueError
  | v :: l => Return (max_from v l)
  end.

Definition Qsum (l : list Q) : Q := foldr Qplus 0%Q l.

(** [statistics.mean(values)]; [StatisticsError] is a [ValueError]. *)
Definition mean (values : list Q) : outcome Q :=
  match values with
  | [] => Raise ValueError
  | _ => Return (Qsum values / inject_Z (Z.of_nat (length values)))%Q
  end.

(** Nearest integer, ties to the even one. *)
Definition round_half_even (q : Q) : Z :=
  let f := Qfloor q in
  match Qcompare (q - inject_Z f) (1 # 2) with
  | Lt => f
  | Gt => f + 1
  | Eq => if Z.even f then f else f + 1
  end.

(** [round(x, 2)] *)
Definition round2 (x : Q) : Q :=
  (inject_Z (round_half_even (x * 100)) / 100)%Q.

(** [next(it)] *)
Definition next {A} (l : list A) : outcome A :=
  match l with
  | [] => Raise StopIteration
  | x :: _ => Return x
  end.

(** [row[...] == v]; [None] equals no float. *)
Definition column_is (s : sensor) (v : Q) (r : row) : bool :=
  match column s r with
  | Some x => Qeq_bool x v
  | None => false
  end.

Definition any_present (r : row) : bool :=
  negb (is_none (r_t1 r)) || negb (is_none (r_t2 r)) || negb (is_none (r_t3 r)).

Record extreme : Type := { val : Q; time : Z * Z }.

Record snapshot : Type := {
  s_min : extreme;
  s_max : extreme;
  s_avg : Q;
  s_current : option Q
}.

Record stats : Type := {
  stats_t1 : option snapshot;
  stats_t2 : option snapshot;
  stats_t3 : option snapshot
}.


(** The values of one sensor, as the two comprehensions build them. *)
Definition sensor_values (s : sensor) (data : list row) : list Q :=
  let values := column s <$> List.filter any_present data in
  omap id values.

(** The body of the loop [for sensor in ['t1', 't2', 't3']]. *)
Definition sensor_snapshot (s : sensor) (data : list row)
  : outcome (option snapshot) :=
  let values := sensor_values s data in
  match values with
  | [] => Return None
  | _ :: _ =>
      min_val ← py_min values;
      max_val ← py_max values;
      avg_val ← mean values;
      min_time ← next (r_timestamp <$> List.filter (column_is s min_val) data);
      max_time ← next (r_timestamp <$> List.filter (column_is s max_val) data);
      Return (Some {| s_min := {| val := min_val; time := hhmm min_time |};
                      s_max := {| val := max_val; time := hhmm max_time |};
                      s_avg := round2 avg_val;
                      s_current := last values |})
  end.

(** The SELECT of [get_statistics]. *)
Definition select_window (cutoff : Z) (tbl : list row) : list row :=
  order_by_timestamp_asc (since cutoff tbl).

(** [get_statistics(hours)] *)
Definition get_statistics (db : db_status) (now hours : Z) : M stats :=
  conn ← get_db_connection db;
  cutoff ← lift (cutoff_time now hours);
  data ← execute_select db (select_window cutoff);
  _ ← close conn;
  match data with
  | [] => mret {| stats_t1 := None; stats_t2 := None; stats_t3 := None |}
  | _ :: _ =>
      s1 ← lift (sensor_snapshot T1 data);
      s2 ← lift (sensor_snapshot T2 data);
      s3 ← lift (sensor_snapshot T3 data);
      mret {| stats_t1 := s1; stats_t2 := s2; stats_t3 := s3 |}
  end.

(** ** Routes *)

Inductive message : Type :=
| DataRecorded            (* "Data recorded successfully" *)
| NoValidTemperatureData  (* "No valid temperature data" *)
| NoDebugData             (* "No debug data available" *)
| ExceptionText (e : exn). (* str(e) *)

(** [POST /submit]: the status code and the message of the JSON body. *)
Definition submit (db : db_status) (now : Z) (data : json)
  : M (Z * message) :=
  catchM
    (t1 ← lift (v ← py_get data "t1"; validate_temp v);
     t2 ← lift (v ← py_get data "t2"; validate_temp v);
     t3 ← lift (v ← py_get data "t3"; validate_temp v);
     battery ← lift (py_get data "battery");
     battery_status ← lift (py_get data "battery_status");
     debug_data ← lift (py_get data "debug");
     if negb (is_none t1) || negb (is_none t2) || negb (is_none t3) then
       ts ← lift (py_get data "ts");
       _ ← add_reading db now t1 t2 t3 battery battery_status ts debug_data;
       mret (200, DataRecorded)
     else mret (400, NoValidTemperatureData))
    (λ e, mret (400, ExceptionText e)).

(** The thirteen columns [get_debug_info] selects. *)
Record debug_info : Type := {
  d_wake_cause : sqlval;
  d_wake_cause_name : sqlval;
  d_reset_reason : sqlval;
  d_reset_reason_name : sqlval;
  d_boot_count : sqlval;
  d_last_boot_count : sqlval;
  d_probe_mode_completed : option bool;
  d_should_run_probe : option bool;
  d_probe_done_this_cycle : option bool;
  d_rtc_sleep_armed : option bool;
  d_unsafe_wake : option bool;
  d_battery : sqlval;
  d_battery_status : sqlval
}.

Definition to_debug_info (r : row) : debug_info :=
  {| d_wake_cause := r_wake_cause r;
     d_wake_cause_name := r_wake_cause_name r;
     d_reset_reason := r_reset_reason r;
     d_reset_reason_name := r_reset_reason_name r;
     d_boot_count := r_boot_count r;
     d_last_boot_count := r_last_boot_count r;
     d_probe_mode_completed := r_probe_mode_completed r;
     d_should_run_probe := r_should_run_probe r;
     d_probe_done_this_cycle := r_probe_done_this_cycle r;
     d_rtc_sleep_armed := r_rtc_sleep_armed r;
     d_unsafe_wake := r_unsafe_wake r;
     d_battery := r_battery r;
     d_battery_status := r_battery_status r |}.

Inductive debug_response : Type :=
| DebugOk (info : debug_info)     (* 200 *)
| DebugNotFound (m : message)     (* 404 *)
| DebugError (e : exn).           (* 500 *)

(** [WHERE wake_cause IS NOT NULL ORDER BY timestamp DESC LIMIT 1] *)
Definition select_latest_debug (tbl : list row) : list row :=
  sql_limit 1
    (order_by_timestamp_desc
       (List.filter (λ r, negb (is_null (r_wake_cause r))) tbl)).

(** [GET /api/debug]; [fetchone()] is the first row, if any. *)
Definition get_debug_info (db : db_status) : M debug_response :=
  catchM
    (conn ← get_db_connection db;
     rows ← execute_select db select_latest_debug;
     _ ← close conn;
     match head rows with
     | Some r => mret (DebugOk (to_debug_info r))
     | None => mret (DebugNotFound NoDebugData)
     end)
    (λ e, mret (DebugError e)).

End Runtime.

(** ** Concrete requests and states *)

(** Two instances of the runtime parsers, for running the model on
    concrete requests: they know the literals below and answer
    [ValueError] on every other text. *)
Definition float_literals (s : string) : option pyfloat :=
  if String.eqb s "25.5" then Some (FFinite (51 # 2))
  else if String.eqb s "nan" then Some FNaN
  else None.

(** 2025-09-11 17:25:05 is second 63893208305. *)
Definition iso_literals (s : string) : option Z :=
  if String.eqb s "2025-09-11 17:25:05" then Some 63893208305 else None.

Definition empty_state : state := {| table := []; cache := ∅ |}.

(** 2025-09-11 12:00:00 on the server's clock. *)
Definition noon : Z := 63893188800.

Definition huge_int : Z := 10 ^ 400.

(** The payload [{"t1": 10**400, "t2": 25}]. *)
Definition huge_t1_payload : json :=
  JDict [("t1", JInt huge_int); ("t2", JInt 25)].


(** The bundle [{"wake_cause": 2, "wake_cause_name": "timer",
    "unsafe_wake": "true", "rtc_sleep_armed": "false"}]. *)
Definition debug_bundle : json :=
  JDict [("wake_cause", JInt 2);
         ("wake_cause_name", JStr "timer");
         ("unsafe_wake", JStr "true");
         ("rtc_sleep_armed", JStr "false")].

(** The payload [{"t1": 21.5, "debug": debug_bundle}]. *)
Definition debug_payload : json :=
  JDict [("t1", JFloat (FFinite (43 # 2))); ("debug", debug_bundle)].

(** The payload [{"t1": 22}]. *)
Definition plain_payload : json := JDict [("t1", JInt 22)].

(** The table after [debug_payload] at noon. *)
Definition after_debug_reading : state :=
  snd (submit float_literals iso_literals DbUp noon debug_payload empty_state).

(** The table after [plain_payload] half an hour later. *)
Definition after_plain_reading : state :=
  snd (submit float_literals iso_literals DbUp (noon + 1800) plain_payload
         after_debug_reading).

(** The table after [plain_payload] alone. *)
Definition only_plain_reading : state :=
  snd (submit float_literals iso_literals DbUp noon plain_payload empty_state).

(** A row with a first temperature and nothing else. *)
Definition bare_row (id timestamp : Z) (t1 : option Q) : row :=
  {| r_id := id; r_timestamp := timestamp;
     r_t1 := t1; r_t2 := None; r_t3 := None;
     r_battery := SNull; r_battery_status := SNull;
     r_wake_cause := SNull; r_wake_cause_name := SNull;
     r_reset_reason := SNull; r_reset_reason_name := SNull;
     r_boot_count := SNull; r_last_boot_count := SNull;
     r_probe_mode_completed := None; r_should_run_probe := None;
     r_probe_done_this_cycle := None; r_rtc_sleep_armed := None;
     r_unsafe_wake := None |}.

(** The row [debug_payload] becomes at noon. *)
Definition debug_row : row :=
  {| r_id := 1; r_timestamp := noon;
     r_t1 := Some (43 # 2)%Q; r_t2 := None; r_t3 := None;
     r_battery := SNull; r_battery_status := SNull;
     r_wake_cause := SInt 2; r_wake_cause_name := SText "timer";
     r_reset_reason := SNull; r_reset_reason_name := SNull;
     r_boot_count := SNull; r_last_boot_count := SNull;
     r_probe_mode_completed := Some false; r_should_run_probe := Some false;
     r_probe_done_this_cycle := Some false; r_rtc_sleep_armed := Some false;
     r_unsafe_wake := Some true |}.

(** [only_plain_reading] once [GET /api/data?hours=24&limit=1000] was
    served at second 500 of [time.time()]. *)
Definition cached_state : state :=
  snd (get_recent_readings DbUp 500%Q (noon + 60) 24 1000 only_plain_reading).


(** The five operational flags, their keys in the debug bundle and their
    columns. *)
Inductive flag : Type :=
| ProbeModeCompleted
| ShouldRunProbe
| ProbeDoneThisCycle
| RtcSleepArmed
| UnsafeWake.

Definition flag_key (f : flag) : string :=
  match f with
  | ProbeModeCompleted => "probe_mode_completed"
  | ShouldRunProbe => "should_run_probe"
  | ProbeDoneThisCycle => "probe_done_this_cycle"
  | RtcSleepArmed => "rtc_sleep_armed"
  | UnsafeWake => "unsafe_wake"
  end.

Definition flag_column (f : flag) (r : row) : option bool :=
  match f with
  | ProbeModeCompleted => r_probe_mode_completed r
  | ShouldRunProbe => r_should_run_probe r
  | ProbeDoneThisCycle => r_probe_done_this_cycle r
  | RtcSleepArmed => r_rtc_sleep_armed r
  | UnsafeWake => r_unsafe_wake r
  end.

(** [d.get(k)] of a dict [d]. *)
Definition field (kvs : list (string * json)) (k : string) : json :=
  default JNull (assoc k kvs).

(** The raw value of a member of the debug bundle ([None] when the bundle
    has no such member or is no dict). *)
Definition raw (debug_data : json) (k : string) : json :=
  match debug_data with
  | JDict kvs => field kvs k
  | _ => JNull
  end.




(** The row [add_reading] writes: what each column is computed from. *)
Definition written_by (fromisoformat : string → option Z) (now : Z)
    (t1 t2 t3 : option Q)
    (battery battery_status timestamp debug_data : json) (r : row) : Prop :=
  r_t1 r = t1 ∧ r_t2 r = t2 ∧ r_t3 r = t3
  ∧ _format_timestamp fromisoformat now timestamp = Return (r_timestamp r)
  ∧ bind battery = Return (r_battery r)
  ∧ bind battery_status = Return (r_battery_status r)
  ∧ (v ← debug_field debug_data "wake_cause"; bind v) = Return (r_wake_cause r)
  ∧ debug_flag debug_data "probe_mode_completed"
    = Return (r_probe_mode_completed r)
  ∧ debug_flag debug_data "should_run_probe" = Return (r_should_run_probe r)
  ∧ debug_flag debug_data "probe_done_this_cycle"
    = Return (r_probe_done_this_cycle r)
  ∧ debug_flag debug_data "rtc_sleep_armed" = Return (r_rtc_sleep_armed r)
  ∧ debug_flag debug_data "unsafe_wake" = Return (r_unsafe_wake r).

(** No temperature was accepted. *)
Definition all_absent (t1 t2 t3 : option Q) : bool :=
  is_none t1 && is_none t2 && is_none t3.





(** The read requests: [GET /api/data], [GET /api/stats] and
    [GET /api/debug], each with what the clocks and SQLite answer
    during the request. *)
Inductive request : Type :=
| GetData (db : db_status) (clock : Q) (now hours limit : Z)
| GetStats (db : db_status) (now hours : Z)
| GetDebug (db : db_status).

(** The state a read request leaves behind. *)
Definition serve (s : state) (q : request) : state :=
  match q with
  | GetData db clock now hours limit =>
      snd (get_recent_readings db clock now hours limit s)
  | GetStats db now hours => snd (get_statistics db now hours s)
  | GetDebug db => snd (get_debug_info db s)
  end.



Fixpoint underscore_free (s : string) : Prop :=
  match s with
  | EmptyString => True
  | String c s' => c ≠ "_"%char ∧ underscore_free s'
  end.

(** ** Further notions for the properties *)

(** A row as [submit] writes it: at least one temperature, and each one
    within the bounds of [validate_temp]. *)
Definition valid_row (r : row) : Prop :=
  any_present r = true
  ∧ ∀ sen v, column sen r = Some v → (-10 <= v)%Q ∧ (v <= 80)%Q.


(** The members of the payload that [submit] reads. *)
Definition submit_members : list string :=
  ["t1"; "t2"; "t3"; "battery"; "battery_status"; "debug"; "ts"].

(** [WHERE wake_cause IS NOT NULL] *)
Definition with_wake_cause (tbl : list row) : list row :=
  List.filter (λ r, negb (is_null (r_wake_cause r))) tbl.

(** ** Secrets, schema, authentication and the guarded routes *)

(** [c.isspace()] for a character below 256. *)
Definition isspace (c : ascii) : bool :=
  let n := N_of_ascii c in
  ((9 <=? n) && (n <=? 13) || (28 <=? n) && (n <=? 32)
   || (n =? 133) || (n =? 160))%N.

(** [s.lstrip()], [s.rstrip()] and [s.strip()] *)
Fixpoint lstrip (s : string) : string :=
  match s with
  | EmptyString => EmptyString
  | String c s' => if isspace c then lstrip s' else s
  end.

Fixpoint rstrip (s : string) : string :=
  match s with
  | EmptyString => EmptyString
  | String c s' =>
      match rstrip s' with
      | EmptyString => if isspace c then EmptyString else String c EmptyString
      | r => String c r
      end
  end.

Definition strip (s : string) : string := rstrip (lstrip s).

Definition starts_with_sep (s : string) : bool :=
  match s with
  | String c _ => Ascii.eqb c "/"
  | EmptyString => false
  end.

Fixpoint ends_with_sep (s : string) : bool :=
  match s with
  | EmptyString => false
  | String c EmptyString => Ascii.eqb c "/"
  | String _ s' => ends_with_sep s'
  end.

(** [os.path.join(a, b)] on POSIX *)
Definition path_join (a b : string) : string :=
  if starts_with_sep b then b
  else if String.eqb a "" || ends_with_sep a then a +:+ b
  else a +:+ "/" +:+ b.

(** [_load_or_create_secret(env_var, file_name, length)].  [environ] is
    [os.environ], [files] maps the path of each existing text file to
    what [read()] returns, and [token_urlsafe] is what the generator
    draws during the call; files are taken to be readable and writable. *)
Definition _load_or_create_secret (BASE_DIR : string)
    (environ : gmap string string) (token_urlsafe : Z → string)
    (env_var file_name : string) (length : Z)
    (files : gmap string string) : string * gmap string string :=
  let create :=
    let generated := token_urlsafe length in
    (generated, <[path_join BASE_DIR file_name := generated]> files) in
  let from_file :=
    match files !! path_join BASE_DIR file_name with
    | Some content =>
        let existing := strip content in
        if negb (String.eqb existing "") then (existing, files) else create
    | None => create
    end in
  match environ !! env_var with
  | Some value =>
      if negb (String.eqb value "") then (strip value, files) else from_file
  | None => from_file
  end.

(** The schema of the database file: the columns of
    [temperature_readings], name and declared type, when the table
    exists, and whether the index [idx_timestamp] exists. *)
Record schema : Type := {
  columns : option (list (string * string));
  indexed : bool
}.

Definition lower (c : ascii) : ascii :=
  let n := N_of_ascii c in
  if ((65 <=? n) && (n <=? 90))%N then ascii_of_N (n + 32) else c.

Fixpoint sql_name (s : string) : string :=
  match s with
  | EmptyString => EmptyString
  | String c s' => String (lower c) (sql_name s')
  end.

(** SQLite compares column names without regard to ASCII case. *)
Definition has_column (name : string) (cols : list (string * string)) : bool :=
  existsb (λ c, String.eqb (sql_name (fst c)) (sql_name name)) cols.

(** The columns of the CREATE TABLE statement. *)
Definition created_columns : list (string * string) :=
  [("id", "INTEGER"); ("timestamp", "DATETIME"); ("t1", "REAL");
   ("t2", "REAL"); ("t3", "REAL"); ("battery", "REAL");
   ("battery_status", "TEXT"); ("sensor_status", "TEXT");
   ("wake_cause", "INTEGER"); ("wake_cause_name", "TEXT");
   ("reset_reason", "INTEGER"); ("reset_reason_name", "TEXT");
   ("boot_count", "INTEGER"); ("last_boot_count", "INTEGER");
   ("probe_mode_completed", "BOOLEAN"); ("should_run_probe", "BOOLEAN");
   ("probe_done_this_cycle", "BOOLEAN"); ("rtc_sleep_armed", "BOOLEAN");
   ("unsafe_wake", "BOOLEAN")].

Definition battery_columns : list (string * string) :=
  [("battery", "REAL"); ("battery_status", "TEXT")].

Definition debug_columns : list (string * string) :=
  [("wake_cause", "INTEGER"); ("wake_cause_name", "TEXT");
   ("reset_reason", "INTEGER"); ("reset_reason_name", "TEXT");
   ("boot_count", "INTEGER"); ("last_boot_count", "INTEGER");
   ("probe_mode_completed", "BOOLEAN"); ("should_run_probe", "BOOLEAN");
   ("probe_done_this_cycle", "BOOLEAN"); ("rtc_sleep_armed", "BOOLEAN");
   ("unsafe_wake", "BOOLEAN")].

(** The columns the INSERT of [add_reading] names. *)
Definition inserted_columns : list string :=
  ["timestamp"; "t1"; "t2"; "t3"; "battery"; "battery_status";
   "wake_cause"; "wake_cause_name"; "reset_reason"; "reset_reason_name";
   "boot_count"; "last_boot_count"; "probe_mode_completed";
   "should_run_probe"; "probe_done_this_cycle"; "rtc_sleep_armed";
   "unsafe_wake"].

(** [CREATE TABLE IF NOT EXISTS temperature_readings (...)] *)
Definition create_table (sc : schema) : schema :=
  match columns sc with
  | Some _ => sc
  | None => {| columns := Some created_columns; indexed := indexed sc |}
  end.

(** [CREATE INDEX IF NOT EXISTS idx_timestamp ON
    temperature_readings(timestamp)]: "no such column" on a table without
    a timestamp. *)
Definition create_index (sc : schema) : outcome unit * schema :=
  if indexed sc then (Return tt, sc)
  else
    match columns sc with
    | Some cols =>
        if has_column "timestamp" cols
        then (Return tt, {| columns := Some cols; indexed := true |})
        else (Raise OperationalError, sc)
    | None => (Raise OperationalError, sc)
    end.

(** [ALTER TABLE temperature_readings ADD COLUMN name type]: "duplicate
    column name" when the table has the column. *)
Definition add_column (c : string * string) (sc : schema)
  : outcome unit * schema :=
  match columns sc with
  | Some cols =>
      if has_column (fst c) cols then (Raise OperationalError, sc)
      else (Return tt, {| columns := Some (cols ++ [c]);
                          indexed := indexed sc |})
  | None => (Raise OperationalError, sc)
  end.

(** [try: ALTER ... except sqlite3.OperationalError: pass] *)
Definition try_add_column (sc : schema) (c : string * string) : schema :=
  snd (add_column c sc).

(** [init_database()].  Statements of the data definition language take
    effect as they run, so [conn.commit()] finds no open transaction and
    does nothing. *)
Definition init_database (db : db_status) (sc : schema)
  : outcome unit * schema :=
  match db with
  | ConnectFails | ExecuteFails => (Raise OperationalError, sc)
  | _ =>
      match create_index (create_table sc) with
      | (Raise e, sc1) => (Raise e, sc1)
      | (Return _, sc1) =>
          let sc2 := foldl try_add_column sc1 battery_columns in
          let sc3 := foldl try_add_column sc2 debug_columns in
          (Return tt, sc3)
      end
  end.

Definition is_ascii (s : string) : bool :=
  forallb (λ c, (N_of_ascii c <? 128)%N) (list_ascii_of_string s).

(** [secrets.compare_digest(a, b)] on two [str]: "comparing strings with
    non-ASCII characters is not supported". *)
Definition compare_digest (a b : string) : outcome bool :=
  if is_ascii a && is_ascii b then Return (String.eqb a b)
  else Raise TypeError.

(** The two 401 answers. *)
Inductive refusal : Type :=
| AuthenticationRequired    (* "Authentication required" *)
| IngestTokenRequired.      (* "Valid ingest token required" *)

(** The answer of a decorated view. *)
Inductive guarded (A : Type) : Type :=
| Unauthorized (why : refusal)
| Served (a : A).
Arguments Unauthorized {A} why.
Arguments Served {A} a.

(** [request.args.get(key, default, type=int)] over the query string as
    a list of pairs; [int_of_str] is [int(str)], [None] standing for
    [ValueError]. *)
Fixpoint args_lookup (key : string) (args : list (string * string))
  : option string :=
  match args with
  | [] => None
  | (k, v) :: rest => if String.eqb k key then Some v else args_lookup key rest
  end.

Definition args_get_int (int_of_str : string → option Z)
    (args : list (string * string)) (key : string) (dflt : Z) : Z :=
  match args_lookup key args with
  | Some v => default dflt (int_of_str v)
  | None => dflt
  end.

(** The body of [GET /api/health]. *)
Inductive health : Type :=
| Healthy (total_readings : Z) (timestamp : Z)
| Unhealthy (e : exn) (timestamp : Z).

Section Application.

Variable float_of_str : string → option pyfloat.
Variable fromisoformat : string → option Z.
Variable int_of_str : string → option Z.

(** The module constants read from the environment or the secret files
    when the application starts. *)
Variable INGEST_TOKEN : string.
Variable DASHBOARD_USER : string.
Variable DASHBOARD_PASSWORD : string.

(** [check_auth(username, password)] *)
Definition check_auth (username password : option string) : outcome bool :=
  let user := default "" username in
  let pwd := default "" password in
  compare_digest user DASHBOARD_USER ≫= λ ok : bool,
  if ok then compare_digest pwd DASHBOARD_PASSWORD else Return false.

(** [@require_auth]: [authorization] is [request.authorization], the user
    name and password of a parsed header, if any. *)
Definition require_auth {A} (f : M A)
    (authorization : option (option string * option string))
  : M (guarded A) :=
  match authorization with
  | None => mret (Unauthorized AuthenticationRequired)
  | Some (username, password) =>
      lift (check_auth username password) ≫= λ ok : bool,
      if ok then a ← f; mret (Served a)
      else mret (Unauthorized AuthenticationRequired)
  end.

(** [@require_ingest_token]: [header] is the X-INGEST-TOKEN header, if
    sent. *)
Definition require_ingest_token {A} (f : M A) (header : option string)
  : M (guarded A) :=
  let supplied := default "" header in
  if String.eqb supplied "" then mret (Unauthorized IngestTokenRequired)
  else
    lift (compare_digest supplied INGEST_TOKEN) ≫= λ ok : bool,
    if ok then a ← f; mret (Served a)
    else mret (Unauthorized IngestTokenRequired).

(** [POST /submit] as registered, behind [@require_ingest_token]. *)
Definition submit_guarded (db : db_status) (now : Z) (header : option string)
    (data : json) : M (guarded (Z * message)) :=
  require_ingest_token (submit float_of_str fromisoformat db now data) header.

(** [GET /api/data] *)
Definition get_data (db : db_status) (clock : Q) (now : Z)
    (authorization : option (option string * option string))
    (args : list (string * string)) : M (guarded (list reading)) :=
  require_auth
    (let hours := args_get_int int_of_str args "hours" 24 in
     let limit := args_get_int int_of_str args "limit" 1000 in
     get_recent_readings db clock now hours limit)
    authorization.

(** [GET /api/stats] *)
Definition get_stats (db : db_status) (now : Z)
    (authorization : option (option string * option string))
    (args : list (string * string)) : M (guarded stats) :=
  require_auth
    (let hours := args_get_int int_of_str args "hours" 24 in
     get_statistics db now hours)
    authorization.

(** [GET /api/debug] as registered, behind [@require_auth]. *)
Definition get_debug_info_guarded (db : db_status)
    (authorization : option (option string * option string))
  : M (guarded debug_response) :=
  require_auth (get_debug_info db) authorization.

(** [GET /api/health] *)
Definition health_check (db : db_status) (now : Z)
    (authorization : option (option string * option string))
  : M (guarded health) :=
  require_auth
    (catchM
       (conn ← get_db_connection db;
        rows ← execute_select db (λ tbl, tbl);
        let count := Z.of_nat (length rows) in
        _ ← close conn;
        mret (Healthy count now))
       (λ e, mret (Unhealthy e now)))
    authorization.

(** A request to one of the routes above, with what the clocks and
    SQLite answer while it is served. *)
Inductive http_request : Type :=
| PostSubmit (db : db_status) (now : Z) (header : option string) (data : json)
| GetApiData (db : db_status) (clock : Q) (now : Z)
    (authorization : option (option string * option string))
    (args : list (string * string))
| GetApiStats (db : db_status) (now : Z)
    (authorization : option (option string * option string))
    (args : list (string * string))
| GetApiDebug (db : db_status)
    (authorization : option (option string * option string))
| GetApiHealth (db : db_status) (now : Z)
    (authorization : option (option string * option string)).

(** The state a request leaves behind. *)
Definition handle (s : state) (q : http_request) : state :=
  match q with
  | PostSubmit db now header data => snd (submit_guarded db now header data s)
  | GetApiData db clock now a args => snd (get_data db clock now a args s)
  | GetApiStats db now a args => snd (get_stats db now a args s)
  | GetApiDebug db a => snd (get_debug_info_guarded db a s)
  | GetApiHealth db now a => snd (health_check db now a s)
  end.

(** The request was a [POST /submit] answered "Data recorded
    successfully". *)
Definition recorded (s : state) (q : http_request) : bool :=
  match q with
  | PostSubmit db now header data =>
      match fst (submit_guarded db now header data s) with
      | Return (Served (200, DataRecorded)) => true
      | _ => false
      end
  | _ => false
  end.

(** How many of the requests, served in turn from [s], were recorded. *)
Fixpoint count_recorded (s : state) (qs : list http_request) : Z :=
  match qs with
  | [] => 0
  | q :: qs' =>
      (if recorded s q then 1 else 0) + count_recorded (handle s q) qs'
  end.

(** The configured user name and password were sent. *)
Definition credentials_match
    (authorization : option (option string * option string)) : bool :=
  match authorization with
  | Some (username, password) =>
      String.eqb (default "" username) DASHBOARD_USER
      && String.eqb (default "" password) DASHBOARD_PASSWORD
  | None => false
  end.

(** A token was sent and it is the configured one. *)
Definition token_matches (header : option string) : bool :=
  negb (String.eqb (default "" header) "")
  && String.eqb (default "" header) INGEST_TOKEN.

Definition authorised (q : http_request) : bool :=
  match q with
  | PostSubmit _ _ header _ => token_matches header
  | GetApiData _ _ _ a _ | GetApiStats _ _ a _ | GetApiDebug _ a
  | GetApiHealth _ _ a => credentials_match a
  end.

End Application.

(** ** Concrete configuration, schema and requests *)

(** An instance of [int] on text, as the parsers above. *)
Definition int_literals (s : string) : option Z :=
  if String.eqb s "1" then Some 1
  else if String.eqb s "24" then Some 24
  else None.

(** A table created before the battery and debug columns existed. *)
Definition legacy_schema : schema :=
  {| columns := Some [("id", "INTEGER"); ("timestamp", "DATETIME");
                      ("t1", "REAL"); ("t2", "REAL"); ("t3", "REAL")];
     indexed := false |}.

(** The Basic credentials admin:pw and admin:wrong. *)
Definition admin_pw : option (option string * option string) :=
  Some (Some "admin", Some "pw").

Definition admin_wrong : option (option string * option string) :=
  Some (Some "admin", Some "wrong").

(** A reading sent with the token, one sent without, and a read of the
    last hour with the credentials. *)
Definition three_requests : list http_request :=
  [PostSubmit DbUp noon (Some "s3cret") plain_payload;
   PostSubmit DbUp (noon + 60) None plain_payload;
   GetApiData DbUp 500%Q (noon + 120) admin_pw [("hours", "1")]].


(** * Properties *)

(** ** Lists, filters and the ORDER BY clauses *)

Lemma append_String (c : ascii) (d x : string) :
  String c d +:+ x = String c (d +:+ x).
Proof. reflexivity. Qed.











(** ** [min], [max], [mean] and [round] *)

Lemma Qlt_bool_true (x y : Q) : Qlt_bool x y = true → (x < y)%Q.
Proof.
  unfold Qlt_bool. rewrite negb_true_iff. intros H.
  apply Qnot_le_lt. intros L. apply Qle_bool_iff in L. congruence.
Qed.

Lemma Qlt_bool_false (x y : Q) : Qlt_bool x y = false → (y <= x)%Q.
Proof.
  unfold Qlt_bool. rewrite negb_false_iff. apply Qle_bool_iff.
Qed.

Lemma Qlt_bool_lt (x y : Q) : (x < y)%Q → Qlt_bool x y = true.
Proof.
  intros L. destruct (Qlt_bool x y) eqn:E; [reflexivity|].
  apply Qlt_bool_false in E. by apply Qle_not_lt in E.
Qed.

Lemma Qlt_bool_ge (x y : Q) : (y <= x)%Q → Qlt_bool x y = false.
Proof.
  intros L. destruct (Qlt_bool x y) eqn:E; [|reflexivity].
  apply Qlt_bool_true in E. by apply Qle_not_lt in L.
Qed.











(** ** One sensor's snapshot *)













(** ** Cache keys *)

Lemma pretty_N_go_underscore_free (x : N) (s : string) :
  underscore_free s → underscore_free (pretty_N_go x s).
Proof.
  revert s. induction (N.lt_wf_0 x) as [x _ IH]. intros s Hs.
  destruct (decide (x = 0)%N) as [->|Hx].
  - by rewrite pretty_N_go_0.
  - rewrite pretty_N_go_step by lia. apply IH.
    + apply N.div_lt; lia.
    + split; [|exact Hs].
      unfold pretty_N_char. repeat case_match; discriminate.
Qed.

Lemma pretty_Z_underscore_free (z : Z) : underscore_free (pretty z).
Proof.
  destruct z as [|p|p]; unfold pretty, pretty_Z.
  - cbn. split; [discriminate|exact I].
  - unfold pretty, pretty_positive, pretty, pretty_N.
    destruct (decide (N.pos p = 0)%N); [discriminate|].
    by apply pretty_N_go_underscore_free.
  - split; [discriminate|].
    unfold pretty, pretty_positive, pretty, pretty_N.
    destruct (decide (N.pos p = 0)%N); [discriminate|].
    by apply pretty_N_go_underscore_free.
Qed.

Lemma separator_inj (a a' b b' : string) :
  underscore_free a → underscore_free a' →
  a +:+ String "_" b = a' +:+ String "_" b' → a = a' ∧ b = b'.
Proof.
  revert a'. induction a as [|c a IH]; intros [|c' a'] Ha Ha' E.
  - by injection E as ->.
  - rewrite append_String in E. injection E as <- _. by destruct Ha' as [? _].
  - rewrite append_String in E. injection E as -> _. by destruct Ha as [? _].
  - rewrite !append_String in E. injection E as -> E.
    destruct Ha as [_ Ha], Ha' as [_ Ha'].
    destruct (IH a' Ha Ha' E) as [-> ->]. done.
Qed.

Lemma cache_key_inj (hours limit hours' limit' : Z) :
  cache_key hours limit = cache_key hours' limit' →
  hours = hours' ∧ limit = limit'.
Proof.
  unfold cache_key. intros E.
  change ("recent_" +:+ ?x) with
    (String "r" (String "e" (String "c" (String "e" (String "n"
       (String "t" (String "_" x))))))) in E.
  injection E as E.
  apply separator_inj in E as [E1 E2];
    try apply pretty_Z_underscore_free.
  split; by eapply (inj pretty).
Qed.

(** ** The operational flags *)

Lemma eq_str_true (v : json) (lit : string) :
  eq_str v lit = true ↔ v = JStr lit.
Proof.
  destruct v; cbn; try (split; [discriminate|congruence]).
  rewrite String.eqb_eq. split; congruence.
Qed.

Lemma debug_flag_cases (debug_data : json) (k : string) (b : option bool) :
  debug_flag debug_data k = Return b →
  (b = Some true ↔ raw debug_data k = JStr "true")
  ∧ (b = Some false ↔
       truthy debug_data = true ∧ raw debug_data k ≠ JStr "true")
  ∧ (b = None ↔ truthy debug_data = false).
Proof.
  unfold debug_flag. destruct (truthy debug_data) eqn:T.
  - destruct debug_data; try discriminate. cbn. intros [= <-].
    fold (field kvs k). rewrite <- eq_str_true.
    destruct (eq_str (field kvs k) "true"); intuition congruence.
  - intros [= <-].
    assert (raw debug_data k ≠ JStr "true").
    { destruct debug_data; try discriminate.
      destruct kvs; [discriminate|discriminate T]. }
    intuition congruence.
Qed.

(** ** The query cache *)

Ltac unfold_query :=
  cbv beta iota zeta delta
    [mbind M_bind lift mret M_ret get_cache cache_put get_db_connection
     execute_select close].

(** [get_statistics] reads the table only: its answer does not depend on
    the cache, and it leaves the state as it was. *)
Lemma get_statistics_pure (db : db_status) (now hours : Z) (s : state) :
  get_statistics db now hours s
  = (fst (get_statistics db now hours {| table := table s; cache := ∅ |}), s).
Proof.
  unfold get_statistics. unfold_query.
  destruct db; try reflexivity;
    (destruct (cutoff_time now hours) as [cutoff|]; [|reflexivity]);
    try reflexivity;
    change (table {| table := table s; cache := ∅ |}) with (table s);
    (destruct (select_window cutoff (table s)) as [|r data];
     [reflexivity|]);
    destruct (sensor_snapshot T1 (r :: data)); try reflexivity;
    destruct (sensor_snapshot T2 (r :: data)); try reflexivity;
    destruct (sensor_snapshot T3 (r :: data)); reflexivity.
Qed.

Lemma get_debug_info_state (db : db_status) (s : state) :
  snd (get_debug_info db s) = s.
Proof.
  unfold get_debug_info, catchM. unfold_query.
  destruct db; try reflexivity; by destruct (head _).
Qed.

(** A cached answer younger than the timeout is returned as it is,
    whatever SQLite would say. *)
Lemma get_recent_readings_hit (db : db_status) (clock : Q)
    (now hours limit : Z) (s : state) (data : list reading) (t : Q) :
  cache s !! cache_key hours limit = Some (data, t) →
  (clock - t < cache_timeout)%Q →
  get_recent_readings db clock now hours limit s = (Return data, s).
Proof.
  intros H T. unfold get_recent_readings. unfold_query. rewrite H.
  apply Qlt_bool_lt in T. by rewrite T.
Qed.

(** Without such an answer the table is queried and the answer cached. *)
Lemma get_recent_readings_miss (clock : Q) (now hours limit cutoff : Z)
    (s : state) :
  (cache s !! cache_key hours limit = None
   ∨ ∃ data t, cache s !! cache_key hours limit = Some (data, t)
               ∧ (cache_timeout <= clock - t)%Q) →
  cutoff_time now hours = Return cutoff → in_int64 limit = true →
  get_recent_readings DbUp clock now hours limit s
  = (Return (to_reading <$> select_recent cutoff limit (table s)),
     {| table := table s;
        cache := <[cache_key hours limit :=
                     (to_reading <$> select_recent cutoff limit (table s),
                      clock)]> (cache s) |}).
Proof.
  intros H C L. unfold get_recent_readings. unfold_query.
  destruct H as [->|(data & t & -> & T)].
  - by rewrite C, L.
  - apply Qlt_bool_ge in T. by rewrite T, C, L.
Qed.

Lemma get_recent_readings_cases (db : db_status) (clock : Q)
    (now hours limit : Z) (s s' : state) (o : outcome (list reading)) :
  get_recent_readings db clock now hours limit s = (o, s') →
  (∃ data t, cache s !! cache_key hours limit = Some (data, t)
             ∧ (clock - t < cache_timeout)%Q ∧ o = Return data ∧ s' = s)
  ∨ (∃ e, o = Raise e ∧ s' = s)
  ∨ (∃ cutoff, cutoff_time now hours = Return cutoff
       ∧ o = Return (to_reading <$> select_recent cutoff limit (table s))
       ∧ s' = {| table := table s;
                 cache := <[cache_key hours limit :=
                   (to_reading <$> select_recent cutoff limit (table s),
                    clock)]> (cache s) |}).
Proof.
  unfold get_recent_readings. unfold_query.
  destruct (cache s !! cache_key hours limit) as [[data t]|] eqn:H;
    [destruct (Qlt_bool (clock - t) cache_timeout) eqn:T;
     [intros [= <- <-]; left; apply Qlt_bool_true in T; eauto 10|]|];
    destruct db, (cutoff_time now hours) as [cutoff|] eqn:C,
      (in_int64 limit) eqn:L;
    intros [= <- <-];
    first [by (right; left; eauto) | by (right; right; eauto 10)].
Qed.

Lemma serve_table (s : state) (q : request) : table (serve s q) = table s.
Proof.
  destruct q as [db clock now hours limit|db now hours|db]; cbn [serve].
  - destruct (get_recent_readings db clock now hours limit s) as [o s'] eqn:E.
    apply get_recent_readings_cases in E
      as [(? & ? & _ & _ & _ & ->)|[(? & _ & ->)|(? & _ & _ & ->)]];
      reflexivity.
  - by rewrite get_statistics_pure.
  - by rewrite get_debug_info_state.
Qed.







(** C5, as the code has it: the statistics path does not use the query
    cache.  [get_statistics] leaves the state as it was, so nothing is
    stored on a miss, and its answer is computed from the table whatever
    the cache holds.  Only [get_recent_readings] checks the cache first: a
    cached answer younger than the timeout is returned without a query;
    otherwise the table is queried, the answer stored under the key, and
    a repeated call for the same window and limit within the timeout is
    served from the cache. *)
Theorem statistics_bypass_cache (db : db_status) (clock : Q)
    (now hours limit : Z) (s : state) :
  snd (get_statistics db now hours s) = s
  ∧ (∀ c, fst (get_statistics db now hours {| table := table s; cache := c |})
          = fst (get_statistics db now hours s))
  ∧ (∀ data t, cache s !! cache_key hours limit = Some (data, t) →
       (clock - t < cache_timeout)%Q →
       get_recent_readings db clock now hours limit s = (Return data, s))
  ∧ (∀ cutoff,
       (cache s !! cache_key hours limit = None
        ∨ ∃ data t, cache s !! cache_key hours limit = Some (data, t)
                    ∧ (cache_timeout <= clock - t)%Q) →
       cutoff_time now hours = Return cutoff → in_int64 limit = true →
       ∃ data s',
         get_recent_readings DbUp clock now hours limit s = (Return data, s')
         ∧ data = to_reading <$> select_recent cutoff limit (table s)
         ∧ cache s' !! cache_key hours limit = Some (data, clock)
         ∧ ∀ db' clock' now', (clock' - clock < cache_timeout)%Q →
             get_recent_readings db' clock' now' hours limit s'
             = (Return data, s')).
Proof.
  split; [by rewrite get_statistics_pure|].
  split; [intros c; by rewrite (get_statistics_pure _ _ _ s),
                                get_statistics_pure|].
  split; [intros data t; apply get_recent_readings_hit|].
  intros cutoff H C L.
  rewrite (get_recent_readings_miss clock now hours limit cutoff s H C L).
  eexists _, _. split; [reflexivity|]. split; [reflexivity|].
  cbn [cache]. rewrite lookup_insert_eq. split; [reflexivity|].
  intros db' clock' now' T. apply (get_recent_readings_hit _ _ _ _ _ _ _ clock).
  - cbn [cache]. by rewrite lookup_insert_eq.
  - exact T.
Qed.

Section Properties.

Variable float_of_str : string → option pyfloat.
Variable fromisoformat : string → option Z.

(** ** [validate_temp] *)

Lemma in_valid_range_spec (q : Q) :
  in_valid_range q = true ↔ (-10 <= q)%Q ∧ (q <= 80)%Q.
Proof.
  unfold in_valid_range. rewrite andb_true_iff, !Qle_bool_iff. tauto.
Qed.

(** What [validate_temp] answers, by the outcome of [float(val)]. *)
Lemma validate_temp_cases (val : json) :
  match py_float float_of_str val with
  | Return (FFinite q) =>
      validate_temp float_of_str val
      = Return (if in_valid_range q then Some q else None)
  | Return _ | Raise TypeError | Raise ValueError =>
      validate_temp float_of_str val = Return None
  | Raise e => validate_temp float_of_str val = Raise e
  end.
Proof.
  unfold validate_temp, catch, mbind, outcome_bind.
  destruct (py_float float_of_str val) as [[| |q]|[]]; try reflexivity.
  destruct (in_valid_range q); reflexivity.
Qed.

(** A value handed back by [validate_temp] lies within the bounds. *)
Lemma validate_temp_in_range (val : json) (q : Q) :
  validate_temp float_of_str val = Return (Some q) →
  (-10 <= q)%Q ∧ (q <= 80)%Q.
Proof.
  intros H. pose proof (validate_temp_cases val) as C.
  destruct (py_float float_of_str val) as [[| |q']|[]];
    rewrite H in C; try discriminate.
  destruct (in_valid_range q') eqn:E; [|discriminate].
  injection C as ->. by apply in_valid_range_spec.
Qed.

Lemma float_of_int_huge : float_of_int huge_int = Raise OverflowError.
Proof. vm_compute. reflexivity. Qed.

(** [validate_temp] raises exactly on an integer that rounds to 2^1024 or
    beyond in magnitude. *)
Lemma validate_temp_raises_iff (val : json) :
  raised (validate_temp float_of_str val) = true
  ↔ ∃ z, val = JInt z ∧ 2 ^ 1024 ≤ Z.abs (round_to_double z).
Proof.
  pose proof (validate_temp_cases val) as C. split.
  - intros R. destruct val as [|b|z|f|t|xs|kvs]; cbn [py_float] in C;
      try (rewrite C in R; discriminate).
    + exists z. split; [reflexivity|]. unfold float_of_int in C.
      destruct (2 ^ 1024 <=? Z.abs (round_to_double z)) eqn:O;
        [by apply Z.leb_le|].
      rewrite C in R. discriminate.
    + destruct f as [| |q]; rewrite C in R; discriminate.
    + destruct (float_of_str t) as [[| |q]|]; rewrite C in R; discriminate.
  - intros (z & -> & O). cbn [py_float] in C. unfold float_of_int in C.
    apply Z.leb_le in O. rewrite O in C. by rewrite C.
Qed.

(** ** Running the state monad *)

Lemma bind_lift {A B} (c : outcome A) (k : A → M B) (s : state) :
  (x ← lift c; k x) s
  = match c with Return a => k a s | Raise e => (Raise e, s) end.
Proof. unfold mbind, M_bind, lift. destruct c; reflexivity. Qed.

Lemma bind_ret {A B} (a : A) (k : A → M B) (s : state) :
  (x ← mret a; k x) s = k a s.
Proof. reflexivity. Qed.

(** One [lift] step of a run recorded in [E]: either the step raises and
    the run ends there, or it goes on. *)
Ltac run_lift E :=
  match type of E with
  | context [mbind _ (lift ?c) _] =>
      rewrite (bind_lift c) in E; destruct c eqn:?
  end.

(** ** [add_reading] *)

(** [add_reading] either raises and leaves table and cache as they were,
    or appends one row and empties the cache. *)
Lemma add_reading_cases (db : db_status) (now : Z) (t1 t2 t3 : option Q)
    (battery battery_status timestamp debug_data : json) (s s' : state)
    (o : outcome unit) :
  add_reading fromisoformat db now t1 t2 t3 battery battery_status
    timestamp debug_data s = (o, s') →
  (∃ e, o = Raise e ∧ s' = s)
  ∨ (∃ r, o = Return tt ∧ s' = {| table := table s ++ [r]; cache := ∅ |}
          ∧ written_by fromisoformat now t1 t2 t3 battery battery_status timestamp
              debug_data r).
Proof.
  intros E. unfold add_reading in E.
  assert (C : db = ConnectFails ∨
              get_db_connection db s = (Return {| pending := [] |}, s)).
  { destruct db; auto. }
  destruct C as [->|C]; [injection E as <- <-; eauto|].
  unfold mbind at 1, M_bind at 1 in E. rewrite C in E.
  repeat (run_lift E; [|injection E as <- <-; eauto]).
  unfold execute_insert in E.
  unfold mbind at 1, M_bind at 1 in E.
  repeat (run_lift E; [|injection E as <- <-; eauto]).
  destruct db; try (cbn in C; discriminate);
    cbn in E; injection E as <- <-; eauto.
  right. eexists. split; [reflexivity|]. split; [reflexivity|].
  unfold written_by; cbn. repeat split; try assumption.
  unfold mbind, outcome_bind.
  match goal with H : debug_field _ "wake_cause" = _ |- _ => by rewrite H end.
Qed.




Lemma _format_timestamp_returns (now : Z) (timestamp : json) :
  ∃ t, _format_timestamp fromisoformat now timestamp = Return t.
Proof.
  unfold _format_timestamp, catch, mbind, outcome_bind.
  destruct (negb (truthy timestamp) || eq_str timestamp "null"); [eauto|].
  destruct timestamp; eauto.
  destruct (fromisoformat (replace_T s)); eauto.
Qed.



(** ** [submit] *)


(** [submit] never raises, and answers 200 only after an append. *)
Lemma submit_keeps_state_on_400 (db : db_status) (now : Z) (data : json)
    (s s' : state) (o : outcome (Z * message)) :
  submit float_of_str fromisoformat db now data s = (o, s') →
  ∃ code m, o = Return (code, m)
    ∧ ((code = 400 ∧ s' = s)
       ∨ (code = 200 ∧ m = DataRecorded
          ∧ ∃ r, s' = {| table := table s ++ [r]; cache := ∅ |})).
Proof.
  intros E. unfold submit in E.
  destruct data; try (cbn in E; injection E as <- <-; eauto 10).
  cbv beta iota zeta delta
    [catchM mbind M_bind lift mret M_ret outcome_bind py_get] in E.
  repeat match type of E with
         | context [match ?c with Return _ => _ | Raise _ => _ end] =>
             destruct c eqn:?; try (injection E as <- <-; eauto 10)
         end.
  match type of E with
  | context [if ?c then _ else _] =>
      destruct c; [|injection E as <- <-; eauto 10]
  end.
  destruct (add_reading _ _ _ _ _ _ _ _ _ _ s) as [o' s''] eqn:A.
  apply add_reading_cases in A as [(e & -> & ->)|(r & -> & -> & _)];
    injection E as <- <-; eauto 10.
Qed.

(** C3 (the code departs from the claim at a huge integer): [float] of an
    integer of 401 digits raises [OverflowError], which [validate_temp]
    does not handle, so [validate_temp] raises instead of answering
    absent; [submit] then rejects the whole payload, with the exception's
    text, although [t2] is a valid temperature. *)
Theorem validate_temp_raises_on_huge_int :
  validate_temp float_of_str (JInt huge_int) = Raise OverflowError
  ∧ ∀ s, submit float_of_str fromisoformat DbUp noon huge_t1_payload s
         = (Return (400, ExceptionText OverflowError), s).
Proof.
  assert (V : validate_temp float_of_str (JInt huge_int) = Raise OverflowError).
  { unfold validate_temp, py_float. rewrite float_of_int_huge. reflexivity. }
  split; [exact V|]. intros s.
  assert (G : py_get huge_t1_payload "t1" = Return (JInt huge_int))
    by reflexivity.
  unfold submit, catchM.
  rewrite bind_lift, G. cbn [mbind outcome_bind]. rewrite V. reflexivity.
Qed.


(** C10: when [add_reading] raises, at whatever step, the cache and the
    table are exactly as before the call; so a request that [submit]
    answers with 400 has neither appended a row nor emptied the cache. *)
Theorem failed_append_keeps_cache (db : db_status) (now : Z)
    (t1 t2 t3 : option Q) (battery battery_status timestamp debug_data : json)
    (data : json) (s : state) :
  (∀ e s', add_reading fromisoformat db now t1 t2 t3 battery battery_status
             timestamp debug_data s = (Raise e, s') →
           cache s' = cache s ∧ table s' = table s)
  ∧ (∀ m s', submit float_of_str fromisoformat db now data s
             = (Return (400, m), s') →
             cache s' = cache s ∧ table s' = table s).
Proof.
  split.
  - intros e s' A.
    apply add_reading_cases in A as [(? & _ & ->)|(? & ? & _)];
      [auto|discriminate].
  - intros m s' E.
    apply submit_keeps_state_on_400 in E
      as (code & m' & [= <- <-] & [[_ ->]|[? _]]); [auto|discriminate].
Qed.

(** C7: in the row a successful [add_reading] writes, each of the five
    flags is true exactly when its raw value [debug_data.get(key)] is the
    string "true"; it is false for every other raw value (the string
    "false", a JSON boolean, a missing member) of a non-empty bundle, and
    absent exactly when the bundle is missing, null or empty. *)
Theorem flag_true_iff_literal_true (db : db_status) (now : Z)
    (t1 t2 t3 : option Q) (battery battery_status timestamp debug_data : json)
    (s s' : state) :
  add_reading fromisoformat db now t1 t2 t3 battery battery_status
    timestamp debug_data s = (Return tt, s') →
  ∃ r, table s' = table s ++ [r]
    ∧ ∀ f : flag,
        (flag_column f r = Some true ↔
           raw debug_data (flag_key f) = JStr "true")
        ∧ (flag_column f r = Some false ↔
             truthy debug_data = true
             ∧ raw debug_data (flag_key f) ≠ JStr "true")
        ∧ (flag_column f r = None ↔ truthy debug_data = false).
Proof using Type.
  intros A.
  apply add_reading_cases in A as [(? & ? & _)|(r & _ & -> & W)];
    [discriminate|].
  exists r. split; [reflexivity|].
  destruct W as (_ & _ & _ & _ & _ & _ & _ & F1 & F2 & F3 & F4 & F5).
  intros []; cbn [flag_column flag_key]; by apply debug_flag_cases.
Qed.

(** ** [_format_timestamp] *)

Lemma replace_T_separator (d t : string) :
  replace_T (d +:+ "T" +:+ t) = replace_T (d +:+ " " +:+ t).
Proof.
  induction d as [|c d IH]; [reflexivity|].
  rewrite !(append_String c d). cbn [replace_T]. by rewrite IH.
Qed.

Lemma format_timestamp_text (now : Z) (text : string) :
  text ≠ "" → text ≠ "null" →
  _format_timestamp fromisoformat now (JStr text)
  = Return (default now (fromisoformat (replace_T text))).
Proof.
  intros N1 N2. unfold _format_timestamp, catch, mbind, outcome_bind.
  cbn [truthy eq_str]. apply String.eqb_neq in N1, N2. rewrite N1, N2.
  cbn [negb orb]. by destruct (fromisoformat (replace_T text)).
Qed.

Lemma separated_not_empty (d t : string) (c : ascii) :
  d +:+ String c t ≠ "".
Proof. destruct d; [|rewrite append_String]; discriminate. Qed.

Lemma separated_not_null (d t : string) (c : ascii) :
  c = "T"%char ∨ c = " "%char → d +:+ String c t ≠ "null".
Proof.
  intros Hc Habs.
  destruct d as [|c1 [|c2 [|c3 [|c4 [|c5 d]]]]];
    rewrite ?append_String in Habs; change ("" +:+ String c t)
      with (String c t) in Habs;
    destruct Hc as [-> | ->]; try discriminate;
    repeat match goal with
           | H : String _ _ = String _ _ |- _ => injection H as ? H
           end; discriminate.
Qed.

(** C6: [_format_timestamp] always returns a timestamp and never raises.
    It is the server's current time when the input is missing, null,
    empty, the text "null", not a text at all, or a text that
    [fromisoformat] rejects; otherwise it is the timestamp parsed from the
    text with every 'T' read as a space, so that a 'T' and a space
    separator give the same result. *)
Theorem format_timestamp_falls_back (now : Z) (timestamp : json) :
  (∃ t, _format_timestamp fromisoformat now timestamp = Return t)
  ∧ (truthy timestamp = false ∨ timestamp = JStr "null" →
     _format_timestamp fromisoformat now timestamp = Return now)
  ∧ ((∀ text, timestamp ≠ JStr text) →
     _format_timestamp fromisoformat now timestamp = Return now)
  ∧ (∀ text, timestamp = JStr text → fromisoformat (replace_T text) = None →
     _format_timestamp fromisoformat now timestamp = Return now)
  ∧ (∀ text dt, timestamp = JStr text → text ≠ "" → text ≠ "null" →
     fromisoformat (replace_T text) = Some dt →
     _format_timestamp fromisoformat now timestamp = Return dt)
  ∧ (∀ d t, _format_timestamp fromisoformat now (JStr (d +:+ "T" +:+ t))
            = _format_timestamp fromisoformat now (JStr (d +:+ " " +:+ t))).
Proof.
  split; [apply _format_timestamp_returns|].
  split.
  { unfold _format_timestamp. intros [->| ->]; reflexivity. }
  split.
  { intros N. unfold _format_timestamp, catch, mbind, outcome_bind.
    destruct (negb (truthy timestamp) || eq_str timestamp "null");
      [reflexivity|].
    destruct timestamp; try reflexivity. by destruct (N s). }
  split.
  { intros text -> P. unfold _format_timestamp, catch, mbind, outcome_bind.
    destruct (negb (truthy (JStr text)) || eq_str (JStr text) "null");
      [reflexivity|by rewrite P]. }
  split.
  { intros text dt -> N1 N2 P. rewrite format_timestamp_text by done.
    by rewrite P. }
  intros d t.
  rewrite !format_timestamp_text
    by (apply separated_not_empty || apply separated_not_null; auto).
  by rewrite replace_T_separator.
Qed.

(** ** [get_debug_info] *)




(** ** Cache coherence *)


End Properties.

(** * Further properties *)

(** ** Integers through [float] *)

Lemma round_to_double_small (z : Z) :
  Z.abs z < 2 ^ 53 → round_to_double z = z.
Proof.
  intros H. unfold round_to_double.
  assert (L : Z.log2 (Z.abs z) + 1 ≤ 53).
  { destruct (Z.eq_dec (Z.abs z) 0) as [E|N]; [rewrite E; cbn; lia|].
    assert (Z.log2 (Z.abs z) < 53); [|lia].
    apply Z.log2_lt_pow2; lia. }
  apply Z.leb_le in L. by rewrite L.
Qed.

Lemma round_to_double_large (z : Z) :
  2 ^ 53 ≤ Z.abs z → 2 ^ 53 ≤ Z.abs (round_to_double z).
Proof.
  intros H. unfold round_to_double. cbv zeta.
  set (a := Z.abs z) in *.
  assert (Ha : 0 < a) by lia.
  assert (L : 53 ≤ Z.log2 a) by (apply Z.log2_le_pow2; lia).
  destruct (Z.log2 a + 1 <=? 53) eqn:B; [apply Z.leb_le in B; lia|].
  set (sh := Z.log2 a + 1 - 53).
  assert (Hsh : 1 ≤ sh) by (unfold sh; lia).
  set (m := Z.shiftr a sh).
  assert (Hm : 2 ^ 52 ≤ m).
  { unfold m. rewrite Z.shiftr_div_pow2 by lia.
    apply Z.div_le_lower_bound; [lia|].
    rewrite <- Z.pow_add_r by lia.
    replace (sh + 52) with (Z.log2 a) by (unfold sh; lia).
    apply Z.log2_spec. lia. }
  match goal with
  | |- context [if ?c then m + 1 else m] =>
      set (m' := if c then m + 1 else m);
      assert (Hm' : m ≤ m') by (unfold m'; destruct c; lia)
  end.
  rewrite Z.abs_mul, Z.shiftl_mul_pow2 by lia.
  assert (S1 : Z.abs (Z.sgn z) = 1) by (unfold a in Ha; lia).
  rewrite S1, Z.mul_1_l, Z.abs_eq by nia.
  assert (2 ^ 1 ≤ 2 ^ sh) by (apply Z.pow_le_mono_r; lia).
  change (2 ^ 53) with (2 ^ 52 * 2 ^ 1). nia.
Qed.

Lemma in_valid_range_int (z : Z) :
  in_valid_range (inject_Z z) = true ↔ -10 ≤ z ≤ 80.
Proof.
  unfold in_valid_range. rewrite andb_true_iff, !Qle_bool_iff.
  change (-10)%Q with (inject_Z (-10)). change 80%Q with (inject_Z 80).
  rewrite <- !Zle_Qle. tauto.
Qed.

(** ** Bounds on a snapshot *)








(** ** Windows *)





(** ** The recent readings *)




(** X7: a call of [get_recent_readings] for one window and limit leaves
    the cached answers of every other window or limit as they were, and
    never touches the table. *)
Theorem other_cache_entries_untouched (db : db_status) (clock : Q)
    (now hours limit hours' limit' : Z) (s : state) :
  (hours', limit') ≠ (hours, limit) →
  cache (snd (get_recent_readings db clock now hours limit s))
    !! cache_key hours' limit'
  = cache s !! cache_key hours' limit'
  ∧ table (snd (get_recent_readings db clock now hours limit s)) = table s.
Proof.
  intros N.
  destruct (get_recent_readings db clock now hours limit s) as [o s'] eqn:E.
  apply get_recent_readings_cases in E
    as [(? & ? & _ & _ & _ & ->)|[(? & _ & ->)|(cutoff & _ & _ & ->)]];
    try done.
  cbn [snd cache table]. split; [|reflexivity].
  apply lookup_insert_ne. intros K.
  apply cache_key_inj in K as [-> ->]. done.
Qed.

Section MoreProperties.

Variable float_of_str : string → option pyfloat.
Variable fromisoformat : string → option Z.

(** X1: an integer temperature is accepted exactly when it lies between
    -10 and 80, and is then handed back unchanged: rounding to a float
    neither moves an integer into the range nor alters one within it. *)
Theorem validate_temp_int (z : Z) (q : Q) :
  validate_temp float_of_str (JInt z) = Return (Some q)
  ↔ -10 ≤ z ≤ 80 ∧ q = inject_Z z.
Proof using Type.
  pose proof (validate_temp_cases float_of_str (JInt z)) as C.
  cbn [py_float] in C. unfold float_of_int in C.
  destruct (Z_lt_le_dec (Z.abs z) (2 ^ 53)) as [S|L].
  - rewrite (round_to_double_small z S) in C.
    assert (O : (2 ^ 1024 <=? Z.abs z) = false).
    { apply Z.leb_gt. eapply Z.lt_trans; [exact S|]. reflexivity. }
    rewrite O in C. rewrite C.
    destruct (in_valid_range (inject_Z z)) eqn:R.
    + apply in_valid_range_int in R. split; [intros [= <-]; auto|].
      by intros [_ ->].
    + split; [discriminate|]. intros [R' _].
      apply in_valid_range_int in R'. congruence.
  - pose proof (round_to_double_large z L) as G.
    assert (N : validate_temp float_of_str (JInt z) ≠ Return (Some q)).
    { destruct (2 ^ 1024 <=? Z.abs (round_to_double z));
        rewrite C; [discriminate|].
      destruct (in_valid_range (inject_Z (round_to_double z))) eqn:R;
        [|discriminate].
      apply in_valid_range_int in R.
      assert (2 ^ 53 = 9007199254740992) by reflexivity. lia. }
    split; [by intros ?|]. intros [R _].
    assert (2 ^ 53 = 9007199254740992) by reflexivity. lia.
Qed.

(** ** What [submit] stores *)

(** A request changes nothing, or appends one row made of the three
    validated temperatures. *)
Lemma submit_appends_validated (db : db_status) (now : Z) (data : json)
    (s s' : state) (o : outcome (Z * message)) :
  submit float_of_str fromisoformat db now data s = (o, s') →
  s' = s
  ∨ ∃ r kvs, data = JDict kvs
      ∧ o = Return (200, DataRecorded)
      ∧ s' = {| table := table s ++ [r]; cache := ∅ |}
      ∧ validate_temp float_of_str (field kvs "t1") = Return (r_t1 r)
      ∧ validate_temp float_of_str (field kvs "t2") = Return (r_t2 r)
      ∧ validate_temp float_of_str (field kvs "t3") = Return (r_t3 r)
      ∧ all_absent (r_t1 r) (r_t2 r) (r_t3 r) = false
      ∧ written_by fromisoformat now (r_t1 r) (r_t2 r) (r_t3 r)
          (field kvs "battery") (field kvs "battery_status")
          (field kvs "ts") (field kvs "debug") r.
Proof.
  intros E. unfold submit in E.
  destruct data as [| | | | |xs|kvs];
    try (cbn in E; injection E as <- <-; by left).
  cbv beta iota zeta delta
    [catchM mbind M_bind lift mret M_ret outcome_bind py_get] in E.
  fold (field kvs "t1") (field kvs "t2") (field kvs "t3")
       (field kvs "battery") (field kvs "battery_status")
       (field kvs "debug") (field kvs "ts") in E.
  destruct (validate_temp float_of_str (field kvs "t1")) as [t1|] eqn:V1;
    [|injection E as <- <-; by left].
  destruct (validate_temp float_of_str (field kvs "t2")) as [t2|] eqn:V2;
    [|injection E as <- <-; by left].
  destruct (validate_temp float_of_str (field kvs "t3")) as [t3|] eqn:V3;
    [|injection E as <- <-; by left].
  destruct (negb (is_none t1) || negb (is_none t2) || negb (is_none t3))
    eqn:P; [|injection E as <- <-; by left].
  destruct (add_reading _ _ _ _ _ _ _ _ _ _ s) as [o' s''] eqn:A.
  apply add_reading_cases in A as [(e & -> & ->)|(r & -> & -> & W)];
    injection E as <- <-; [by left|].
  right. exists r, kvs.
  pose proof W as (R1 & R2 & R3 & _). rewrite R1, R2, R3.
  repeat (split; [done|]). split; [|exact W].
  unfold all_absent. by destruct t1, t2, t3.
Qed.

(** X2: [submit] keeps the table well-formed: if every stored row has at
    least one temperature and all its temperatures lie between -10 and
    80, the same holds after any request, accepted or not. *)
Theorem submit_keeps_rows_valid (db : db_status) (now : Z) (data : json)
    (s : state) :
  Forall valid_row (table s) →
  Forall valid_row
    (table (snd (submit float_of_str fromisoformat db now data s))).
Proof.
  intros H.
  destruct (submit float_of_str fromisoformat db now data s) as [o s'] eqn:E.
  apply submit_appends_validated in E
    as [->|(r & kvs & _ & _ & -> & V1 & V2 & V3 & A & _)]; [exact H|].
  cbn. apply Forall_app. split; [exact H|]. constructor; [|constructor].
  split.
  - unfold any_present. unfold all_absent in A.
    destruct (r_t1 r), (r_t2 r), (r_t3 r); done.
  - intros sen v C.
    destruct sen; cbn [column] in C; rewrite C in *;
      eapply validate_temp_in_range; eassumption.
Qed.

(** ** Readings and the latest diagnostics *)

(** The answer of [get_debug_info] depends on the rows with a wake cause
    only. *)
Lemma get_debug_info_answer (db : db_status) (s s' : state) :
  with_wake_cause (table s') = with_wake_cause (table s) →
  fst (get_debug_info db s') = fst (get_debug_info db s).
Proof using Type.
  unfold with_wake_cause. intros H. unfold get_debug_info, catchM.
  unfold_query. unfold select_latest_debug.
  destruct db; cbv beta iota zeta; rewrite ?H; try reflexivity;
    by destruct (head _).
Qed.

Lemma null_wake_cause_stored (debug_data : json) (v : sqlval) :
  raw debug_data "wake_cause" = JNull →
  (x ← debug_field debug_data "wake_cause"; bind x) = Return v →
  v = SNull.
Proof using Type.
  unfold debug_field, raw. intros R.
  destruct (truthy debug_data).
  - destruct debug_data; try discriminate. cbn [py_get mbind outcome_bind].
    fold (field kvs "wake_cause"). rewrite R. by intros [= <-].
  - by intros [= <-].
Qed.

(** X8: a reading stored without a wake cause (no debug bundle, or a
    bundle whose [wake_cause] is missing or null) never changes what
    [get_debug_info] answers. *)
Theorem reading_without_wake_cause_keeps_debug_info (db db' : db_status)
    (now : Z) (t1 t2 t3 : option Q)
    (battery battery_status timestamp debug_data : json) (s s' : state) :
  add_reading fromisoformat db now t1 t2 t3 battery battery_status
    timestamp debug_data s = (Return tt, s') →
  raw debug_data "wake_cause" = JNull →
  fst (get_debug_info db' s') = fst (get_debug_info db' s).
Proof using Type.
  intros A R.
  apply add_reading_cases in A as [(? & ? & _)|(r & _ & -> & W)];
    [discriminate|].
  destruct W as (_ & _ & _ & _ & _ & _ & Wc & _).
  apply (null_wake_cause_stored _ _ R) in Wc.
  apply get_debug_info_answer. cbn [table]. unfold with_wake_cause.
  rewrite List.filter_app. cbn [List.filter]. rewrite Wc. cbn.
  by rewrite app_nil_r.
Qed.



(** X10: [submit] reads seven members of the payload and no other: two
    objects that agree on [t1], [t2], [t3], [battery], [battery_status],
    [debug] and [ts] get the same answer and leave the same state. *)
Theorem submit_reads_seven_members (db : db_status) (now : Z)
    (kvs kvs' : list (string * json)) (s : state) :
  (∀ k, k ∈ submit_members → field kvs k = field kvs' k) →
  submit float_of_str fromisoformat db now (JDict kvs) s
  = submit float_of_str fromisoformat db now (JDict kvs') s.
Proof.
  intros H. unfold submit. cbv beta iota delta [py_get].
  fold (field kvs "t1") (field kvs "t2") (field kvs "t3")
       (field kvs "battery") (field kvs "battery_status")
       (field kvs "debug") (field kvs "ts").
  fold (field kvs' "t1") (field kvs' "t2") (field kvs' "t3")
       (field kvs' "battery") (field kvs' "battery_status")
       (field kvs' "debug") (field kvs' "ts").
  rewrite !H; [reflexivity|..]; unfold submit_members;
    repeat (apply list_elem_of_here || apply list_elem_of_further).
Qed.

End MoreProperties.

(** ** Secrets *)

Lemma rstrip_idem (s : string) : rstrip (rstrip s) = rstrip s.
Proof.
  induction s as [|c s IH]; [reflexivity|]. cbn [rstrip].
  destruct (rstrip s) as [|d r] eqn:R.
  - destruct (isspace c) eqn:W; [reflexivity|]. cbn [rstrip]. by rewrite W.
  - change (rstrip (String c (String d r)))
      with (match rstrip (String d r) with
            | EmptyString =>
                if isspace c then EmptyString else String c EmptyString
            | r' => String c r'
            end).
    by rewrite IH.
Qed.

Lemma lstrip_head (s : string) :
  match lstrip s with
  | String c _ => isspace c = false
  | EmptyString => True
  end.
Proof.
  induction s as [|c s IH]; [exact I|]. cbn [lstrip].
  destruct (isspace c) eqn:W; [exact IH|exact W].
Qed.

Lemma rstrip_head (c : ascii) (s : string) :
  isspace c = false → ∃ r, rstrip (String c s) = String c r.
Proof.
  intros W. cbn [rstrip]. rewrite W. destruct (rstrip s); eauto.
Qed.

Lemma strip_idem (s : string) : strip (strip s) = strip s.
Proof.
  unfold strip. pose proof (lstrip_head s) as H.
  destruct (lstrip s) as [|c t]; [reflexivity|].
  destruct (rstrip_head c t H) as [r R]. rewrite R.
  cbn [lstrip]. rewrite H, <- R. apply rstrip_idem.
Qed.

Lemma lstrip_empty (s : string) :
  lstrip s = "" ↔ forallb isspace (list_ascii_of_string s) = true.
Proof.
  induction s as [|c s IH]; [done|]. cbn [lstrip list_ascii_of_string forallb].
  destruct (isspace c); [exact IH|]. split; discriminate.
Qed.

Lemma strip_empty (s : string) :
  strip s = "" ↔ forallb isspace (list_ascii_of_string s) = true.
Proof.
  rewrite <- lstrip_empty. unfold strip. pose proof (lstrip_head s) as H.
  destruct (lstrip s) as [|c t]; [done|].
  destruct (rstrip_head c t H) as [r ->]. split; discriminate.
Qed.

Lemma eqb_empty (s : string) : String.eqb s "" = false ↔ s ≠ "".
Proof. rewrite <- String.eqb_neq. done. Qed.

(** X11: a secret, once obtained, is the one every later call returns,
    whatever the generator would draw then: with a generator that draws
    non-empty text without surrounding whitespace, calling
    [_load_or_create_secret] again on the files the first call left gives
    the same secret and leaves the files as they are. *)
Theorem secret_is_stable (BASE_DIR : string) (environ : gmap string string)
    (token_urlsafe token_urlsafe' : Z → string) (env_var file_name : string)
    (length length' : Z) (files : gmap string string) :
  strip (token_urlsafe length) = token_urlsafe length →
  token_urlsafe length ≠ "" →
  _load_or_create_secret BASE_DIR environ token_urlsafe' env_var file_name
    length'
    (snd (_load_or_create_secret BASE_DIR environ token_urlsafe env_var
            file_name length files))
  = _load_or_create_secret BASE_DIR environ token_urlsafe env_var file_name
      length files.
Proof.
  intros S N. apply eqb_empty in N.
  unfold _load_or_create_secret. cbv zeta.
  destruct (environ !! env_var) as [value|];
    [destruct (negb (String.eqb value "")); [reflexivity|]|];
    (destruct (files !! path_join BASE_DIR file_name) as [content|] eqn:F;
     [destruct (negb (String.eqb (strip content) "")) eqn:C|]);
    cbn [snd]; rewrite ?F, ?C, ?lookup_insert_eq, ?S, ?N; reflexivity.
Qed.

(** X12: a non-empty value of the environment variable decides the
    secret alone: it is the value stripped, no file is read or written
    and nothing is generated; the secret is then empty exactly when the
    value consists of whitespace. *)
Theorem secret_from_environment (BASE_DIR : string)
    (environ : gmap string string) (token_urlsafe : Z → string)
    (env_var file_name : string) (length : Z) (files : gmap string string)
    (value : string) :
  environ !! env_var = Some value → value ≠ "" →
  _load_or_create_secret BASE_DIR environ token_urlsafe env_var file_name
    length files = (strip value, files)
  ∧ (strip value = ""
     ↔ forallb isspace (list_ascii_of_string value) = true).
Proof.
  intros E N. apply eqb_empty in N. split; [|apply strip_empty].
  unfold _load_or_create_secret. cbv zeta. by rewrite E, N.
Qed.

(** ** The schema *)

Lemma has_column_app (name : string) (cols cols' : list (string * string)) :
  has_column name (cols ++ cols')
  = has_column name cols || has_column name cols'.
Proof. apply existsb_app. Qed.

Lemma has_column_here (c : string * string) (cols : list (string * string)) :
  has_column (fst c) (cols ++ [c]) = true.
Proof.
  rewrite has_column_app. cbn [has_column existsb].
  rewrite String.eqb_refl. by rewrite orb_true_r.
Qed.

Lemma try_add_column_present (sc : schema) (c : string * string)
    (cols : list (string * string)) :
  columns sc = Some cols → has_column (fst c) cols = true →
  try_add_column sc c = sc.
Proof. intros C H. unfold try_add_column, add_column. by rewrite C, H. Qed.

Lemma foldl_try_add_column_present (sc : schema)
    (l cols : list (string * string)) :
  columns sc = Some cols →
  (∀ c, c ∈ l → has_column (fst c) cols = true) →
  foldl try_add_column sc l = sc.
Proof.
  intros C H. induction l as [|c l IH]; [reflexivity|]. cbn [foldl].
  rewrite (try_add_column_present sc c cols C).
  - apply IH. intros c' Hc'. apply H. by right.
  - apply H. by left.
Qed.

Lemma foldl_try_add_column (l : list (string * string)) (sc : schema)
    (cols : list (string * string)) :
  columns sc = Some cols →
  ∃ added,
    columns (foldl try_add_column sc l) = Some (cols ++ added)
    ∧ indexed (foldl try_add_column sc l) = indexed sc
    ∧ added ⊆ l
    ∧ ∀ c, c ∈ l → has_column (fst c) (cols ++ added) = true.
Proof.
  revert sc cols. induction l as [|c l IH]; intros sc cols C.
  - exists []. rewrite app_nil_r. cbn [foldl]. repeat split; try done.
    intros c Hc. by apply elem_of_nil in Hc.
  - cbn [foldl]. destruct (has_column (fst c) cols) eqn:H.
    + rewrite (try_add_column_present sc c cols C H).
      destruct (IH sc cols C) as (added & C' & I' & S' & H').
      exists added. repeat split; try done.
      * intros x Hx. right. by apply S'.
      * intros x [->|Hx]%elem_of_cons; [|by apply H'].
        by rewrite has_column_app, H.
    + assert (columns (try_add_column sc c) = Some (cols ++ [c])
              ∧ indexed (try_add_column sc c) = indexed sc) as [C1 I1].
      { unfold try_add_column, add_column. by rewrite C, H. }
      destruct (IH _ _ C1) as (added & C' & I' & S' & H').
      exists (c :: added). rewrite <- app_assoc in C', H'. cbn [app] in C', H'.
      repeat split; try done.
      * by rewrite I'.
      * intros x [->|Hx]%elem_of_cons; [by left|]. right. by apply S'.
      * intros x [->|Hx]%elem_of_cons; [|by apply H'].
        rewrite (has_column_app _ cols (c :: added)).
        cbn [has_column existsb]. rewrite String.eqb_refl.
        by rewrite orb_true_r.
Qed.

Lemma create_index_cases (sc : schema) :
  (create_index sc = (Raise OperationalError, sc)
   ∧ indexed sc = false
   ∧ ∀ cols, columns sc = Some cols → has_column "timestamp" cols = false)
  ∨ ∃ sc', create_index sc = (Return tt, sc')
       ∧ columns sc' = columns sc ∧ indexed sc' = true
       ∧ (indexed sc = false →
          ∃ cols, columns sc = Some cols
                  ∧ has_column "timestamp" cols = true).
Proof.
  unfold create_index. destruct (indexed sc) eqn:I.
  - right. exists sc. by repeat split.
  - destruct (columns sc) as [cols|] eqn:C.
    + destruct (has_column "timestamp" cols) eqn:H.
      * right. eexists. repeat split; eauto.
      * left. repeat split; try done. by intros ? [= <-].
    + left. by repeat split.
Qed.

(** A run of [init_database] that returns. *)
Lemma init_database_run (db : db_status) (sc sc' : schema) :
  init_database db sc = (Return tt, sc') →
  ∃ sc1,
    create_index (create_table sc) = (Return tt, sc1)
    ∧ sc' = foldl try_add_column sc1 (battery_columns ++ debug_columns).
Proof.
  unfold init_database. intros E.
  destruct (create_index (create_table sc)) as [[[]|e] sc1] eqn:X.
  - exists sc1. split; [reflexivity|]. rewrite foldl_app.
    cbv zeta in E.
    generalize dependent
      (foldl try_add_column (foldl try_add_column sc1 battery_columns)
         debug_columns).
    intros sc3 E. destruct db; congruence.
  - destruct db; discriminate E.
Qed.

Lemma create_table_columns (sc : schema) :
  ∃ cols, columns (create_table sc) = Some cols
    ∧ indexed (create_table sc) = indexed sc
    ∧ (columns sc = None → cols = created_columns)
    ∧ (∀ cols0, columns sc = Some cols0 → cols = cols0 ∧ create_table sc = sc).
Proof.
  unfold create_table. destruct (columns sc) as [cols|] eqn:C.
  - exists cols. rewrite C. split; [done|]. split; [done|].
    split; [discriminate|]. by intros ? [= <-].
  - exists created_columns. split; [done|]. split; [done|].
    split; [done|discriminate].
Qed.

(** X13: when [init_database] returns, the table and the index exist,
    the table has each of the two battery columns and the eleven debug
    columns, the columns of an existing table are kept as they were, in
    place, with only missing ones of those thirteen added after them, and
    a table that did not exist has exactly the columns of the CREATE TABLE
    statement. *)
Theorem init_database_completes (db : db_status) (sc sc' : schema) :
  init_database db sc = (Return tt, sc') →
  ∃ cols',
    columns sc' = Some cols'
    ∧ indexed sc' = true
    ∧ (∀ c, c ∈ battery_columns ++ debug_columns →
            has_column (fst c) cols' = true)
    ∧ (∀ cols, columns sc = Some cols →
         ∃ added, cols' = cols ++ added
                  ∧ added ⊆ battery_columns ++ debug_columns)
    ∧ (columns sc = None → cols' = created_columns).
Proof.
  intros (sc1 & X & ->)%init_database_run.
  destruct (create_table_columns sc) as (cols & C & _ & Fresh & Old).
  destruct (create_index_cases (create_table sc))
    as [(X' & _)|(sc1' & X' & C1 & I1 & _)]; rewrite X' in X; [discriminate|].
  injection X as <-. rewrite C in C1.
  destruct (foldl_try_add_column (battery_columns ++ debug_columns) sc1' cols C1)
    as (added & C' & I' & S' & H').
  exists (cols ++ added). split; [exact C'|]. split; [by rewrite I'|].
  split; [exact H'|]. split.
  - intros cols0 C0. destruct (Old cols0 C0) as [-> _]. by exists added.
  - intros N. specialize (Fresh N). subst cols.
    rewrite (foldl_try_add_column_present sc1' _ created_columns C1) in C'.
    + rewrite C1 in C'. by injection C' as <-.
    + intros c Hc. unfold battery_columns, debug_columns in Hc.
      cbn [app] in Hc.
      repeat (apply elem_of_cons in Hc as [->|Hc];
              [vm_compute; reflexivity|]).
      by apply elem_of_nil in Hc.
Qed.

(** X14: [init_database] is idempotent: called again on the schema a
    call that returned left behind, it returns and leaves that schema as
    it is. *)
Theorem init_database_idempotent (db : db_status) (sc sc' : schema) :
  init_database db sc = (Return tt, sc') →
  init_database db sc' = (Return tt, sc').
Proof.
  intros E. pose proof E as (sc1 & X & Hsc')%init_database_run.
  destruct (create_table_columns sc) as (cols & C & _ & _ & _).
  destruct (create_index_cases (create_table sc))
    as [(X' & _)|(sc1' & X' & C1 & I1 & _)]; rewrite X' in X; [discriminate|].
  injection X as <-. rewrite C in C1.
  destruct (foldl_try_add_column (battery_columns ++ debug_columns) sc1' cols C1)
    as (added & C' & I' & S' & H').
  rewrite <- Hsc' in C', I'. rewrite I1 in I'.
  assert (create_table sc' = sc') as T by (unfold create_table; by rewrite C').
  assert (create_index sc' = (Return tt, sc')) as X
    by (unfold create_index; by rewrite I').
  unfold init_database. rewrite T, X, <- foldl_app.
  rewrite (foldl_try_add_column_present sc' _ _ C' H').
  unfold init_database in E.
  destruct db; first [reflexivity|discriminate E].
Qed.

(** X15: with SQLite up, [init_database] raises exactly when the table
    exists without a timestamp column and the index is missing: the CREATE
    INDEX statement fails, nothing has been changed and no column is
    added. *)
Theorem init_database_raises_iff (sc sc' : schema) (e : exn) :
  init_database DbUp sc = (Raise e, sc')
  ↔ e = OperationalError ∧ sc' = sc ∧ indexed sc = false
    ∧ ∃ cols, columns sc = Some cols ∧ has_column "timestamp" cols = false.
Proof.
  unfold init_database.
  destruct (create_table_columns sc) as (cols & C & I & Fresh & Old).
  destruct (create_index_cases (create_table sc))
    as [(X & I' & H)|(sc1 & X & _ & _ & H)]; rewrite X.
  - rewrite I in I'. specialize (H cols C).
    destruct (columns sc) as [cols0|] eqn:C0.
    + destruct (Old cols0 eq_refl) as [-> T]. rewrite T. split.
      * intros [= <- <-]. eauto 10.
      * by intros (-> & -> & _).
    + rewrite (Fresh eq_refl) in H. discriminate.
  - split; [discriminate|]. intros (_ & _ & I0 & cols0 & C0 & H0).
    destruct (Old cols0 C0) as [-> T]. rewrite T in H.
    destruct (H I0) as (cols1 & C1 & H1). congruence.
Qed.


(** ** Authentication *)

Lemma compare_digest_true (a b : string) :
  compare_digest a b = Return true ↔ a = b ∧ is_ascii b = true.
Proof.
  unfold compare_digest.
  destruct (is_ascii a) eqn:Ha, (is_ascii b) eqn:Hb; cbn [andb].
  - destruct (String.eqb_spec a b) as [->|N]; [by split|].
    split; [discriminate|]. by intros [? _].
  - split; [discriminate|]. by intros [_ ?].
  - split; [discriminate|]. intros [-> _]. congruence.
  - split; [discriminate|]. by intros [_ ?].
Qed.

Lemma compare_digest_raises (a b : string) (e : exn) :
  compare_digest a b = Raise e
  ↔ e = TypeError ∧ is_ascii a && is_ascii b = false.
Proof.
  unfold compare_digest. destruct (is_ascii a && is_ascii b); split.
  - discriminate.
  - by intros [_ ?].
  - by intros [= <-].
  - by intros [-> _].
Qed.

Section ApplicationProperties.

Variable float_of_str : string → option pyfloat.
Variable fromisoformat : string → option Z.
Variable int_of_str : string → option Z.
Variable INGEST_TOKEN : string.
Variable DASHBOARD_USER : string.
Variable DASHBOARD_PASSWORD : string.

(** X16: [check_auth] answers true exactly when the user name and the
    password, a missing one read as the empty text, are the configured
    ones and these are ASCII. *)
Theorem check_auth_true_iff (username password : option string) :
  check_auth DASHBOARD_USER DASHBOARD_PASSWORD username password = Return true
  ↔ default "" username = DASHBOARD_USER
    ∧ default "" password = DASHBOARD_PASSWORD
    ∧ is_ascii DASHBOARD_USER = true
    ∧ is_ascii DASHBOARD_PASSWORD = true.
Proof.
  unfold check_auth, mbind, outcome_bind.
  destruct (compare_digest (default "" username) DASHBOARD_USER)
    as [[|]|e] eqn:C.
  - apply compare_digest_true in C as [U A]. rewrite compare_digest_true.
    split; [by intros [? ?]|by intros (_ & ? & _ & ?)].
  - split; [discriminate|]. intros (U & _ & A & _).
    assert (compare_digest (default "" username) DASHBOARD_USER = Return true)
      by (by apply compare_digest_true).
    congruence.
  - split; [discriminate|]. intros (U & _ & A & _).
    assert (compare_digest (default "" username) DASHBOARD_USER = Return true)
      by (by apply compare_digest_true).
    congruence.
Qed.

(** X17: [check_auth] raises, always [TypeError], exactly when the user
    name sent or the configured one is not ASCII, or the user name is the
    configured one and the password sent or the configured one is not
    ASCII; after a wrong ASCII user name the password is not looked at. *)
Theorem check_auth_raises_iff (username password : option string) (e : exn) :
  check_auth DASHBOARD_USER DASHBOARD_PASSWORD username password = Raise e
  ↔ e = TypeError
    ∧ (is_ascii (default "" username) && is_ascii DASHBOARD_USER = false
       ∨ (default "" username = DASHBOARD_USER
          ∧ is_ascii (default "" password) && is_ascii DASHBOARD_PASSWORD
            = false)).
Proof.
  unfold check_auth, mbind, outcome_bind.
  destruct (compare_digest (default "" username) DASHBOARD_USER)
    as [[|]|e'] eqn:C.
  - rewrite compare_digest_raises.
    apply compare_digest_true in C as [U A]. rewrite U, A, andb_diag.
    split; [intros [? ?]; eauto|].
    intros (? & [?|[_ ?]]); [congruence|done].
  - split; [discriminate|]. intros (_ & [H|[U _]]).
    + assert (compare_digest (default "" username) DASHBOARD_USER
              = Raise TypeError) by (by apply compare_digest_raises).
      congruence.
    + unfold compare_digest in C. rewrite U, String.eqb_refl in C.
      by destruct (is_ascii DASHBOARD_USER && is_ascii DASHBOARD_USER).
  - apply compare_digest_raises in C as [-> C]. split.
    + intros [= <-]. eauto.
    + by intros [-> _].
Qed.

(** [check_auth] and the two decorators, step by step. *)
Lemma check_auth_run (username password : option string) :
  check_auth DASHBOARD_USER DASHBOARD_PASSWORD username password
  = if is_ascii (default "" username) && is_ascii DASHBOARD_USER then
      if String.eqb (default "" username) DASHBOARD_USER then
        if is_ascii (default "" password) && is_ascii DASHBOARD_PASSWORD
        then Return (String.eqb (default "" password) DASHBOARD_PASSWORD)
        else Raise TypeError
      else Return false
    else Raise TypeError.
Proof.
  unfold check_auth, compare_digest, mbind, outcome_bind. cbv zeta.
  destruct (is_ascii (default "" username) && is_ascii DASHBOARD_USER);
    [|reflexivity].
  by destruct (String.eqb (default "" username) DASHBOARD_USER).
Qed.

Lemma require_auth_some {A} (f : M A) (username password : option string)
    (s : state) :
  require_auth DASHBOARD_USER DASHBOARD_PASSWORD f
    (Some (username, password)) s
  = match check_auth DASHBOARD_USER DASHBOARD_PASSWORD username password with
    | Return true =>
        match f s with
        | (Return a, s') => (Return (Served a), s')
        | (Raise e, s') => (Raise e, s')
        end
    | Return false => (Return (Unauthorized AuthenticationRequired), s)
    | Raise e => (Raise e, s)
    end.
Proof.
  unfold require_auth.
  change (mbind ?k (lift ?c)) with (x ← lift c; k x). rewrite bind_lift.
  by destruct (check_auth _ _ username password) as [[|]|e].
Qed.

Lemma require_ingest_token_run {A} (f : M A) (header : option string)
    (s : state) :
  require_ingest_token INGEST_TOKEN f header s
  = if String.eqb (default "" header) ""
    then (Return (Unauthorized IngestTokenRequired), s)
    else if is_ascii (default "" header) && is_ascii INGEST_TOKEN then
      if String.eqb (default "" header) INGEST_TOKEN then
        match f s with
        | (Return a, s') => (Return (Served a), s')
        | (Raise e, s') => (Raise e, s')
        end
      else (Return (Unauthorized IngestTokenRequired), s)
    else (Raise TypeError, s).
Proof.
  unfold require_ingest_token. cbv zeta.
  destruct (String.eqb (default "" header) ""); [reflexivity|].
  change (mbind ?k (lift ?c)) with (x ← lift c; k x). rewrite bind_lift.
  unfold compare_digest.
  destruct (is_ascii (default "" header) && is_ascii INGEST_TOKEN);
    [|reflexivity].
  destruct (String.eqb (default "" header) INGEST_TOKEN); [|reflexivity].
  unfold mbind, M_bind. by destruct (f s) as [[a|e] s'].
Qed.

(** X18: without the configured credentials [@require_auth] does not run
    the view: whatever the view is, the answer is the 401 response, or
    [TypeError] is raised, and the state is as before. *)
Theorem require_auth_refuses {A} (f : M A)
    (authorization : option (option string * option string)) (s : state) :
  credentials_match DASHBOARD_USER DASHBOARD_PASSWORD authorization = false →
  require_auth DASHBOARD_USER DASHBOARD_PASSWORD f authorization s
  = (Return (Unauthorized AuthenticationRequired), s)
  ∨ require_auth DASHBOARD_USER DASHBOARD_PASSWORD f authorization s
    = (Raise TypeError, s).
Proof.
  intros H. destruct authorization as [[u p]|]; [|by left].
  rewrite require_auth_some, check_auth_run. unfold credentials_match in H.
  destruct (is_ascii (default "" u) && is_ascii DASHBOARD_USER); [|by right].
  destruct (String.eqb (default "" u) DASHBOARD_USER); [|by left].
  destruct (is_ascii (default "" p) && is_ascii DASHBOARD_PASSWORD);
    [|by right].
  cbn [andb] in H. rewrite H. by left.
Qed.

(** X19: with the configured credentials, when these are ASCII,
    [@require_auth] runs the view once on the state as it is and hands
    its answer, or the exception it raises, through. *)
Theorem require_auth_admits {A} (f : M A)
    (authorization : option (option string * option string)) (s : state) :
  credentials_match DASHBOARD_USER DASHBOARD_PASSWORD authorization = true →
  is_ascii DASHBOARD_USER = true → is_ascii DASHBOARD_PASSWORD = true →
  require_auth DASHBOARD_USER DASHBOARD_PASSWORD f authorization s
  = match f s with
    | (Return a, s') => (Return (Served a), s')
    | (Raise e, s') => (Raise e, s')
    end.
Proof.
  intros H AU AP. destruct authorization as [[u p]|]; [|discriminate].
  rewrite require_auth_some, check_auth_run.
  apply andb_true_iff in H as [U%String.eqb_eq P%String.eqb_eq].
  by rewrite U, P, AU, AP, !String.eqb_refl.
Qed.

(** X20: without the configured token (none sent, an empty one or a
    different one) [@require_ingest_token] does not run the view: the
    answer is the 401 response, or [TypeError] is raised, and the state
    is as before. *)
Theorem require_ingest_token_refuses {A} (f : M A) (header : option string)
    (s : state) :
  token_matches INGEST_TOKEN header = false →
  require_ingest_token INGEST_TOKEN f header s
  = (Return (Unauthorized IngestTokenRequired), s)
  ∨ require_ingest_token INGEST_TOKEN f header s = (Raise TypeError, s).
Proof.
  unfold token_matches. intros H. rewrite require_ingest_token_run.
  destruct (String.eqb (default "" header) ""); [by left|].
  cbn [negb andb] in H. rewrite H.
  destruct (is_ascii (default "" header) && is_ascii INGEST_TOKEN);
    [by left|by right].
Qed.

(** X21: with the configured token, when it is ASCII,
    [@require_ingest_token] runs the view once on the state as it is and
    hands its answer, or the exception it raises, through. *)
Theorem require_ingest_token_admits {A} (f : M A) (header : option string)
    (s : state) :
  token_matches INGEST_TOKEN header = true → is_ascii INGEST_TOKEN = true →
  require_ingest_token INGEST_TOKEN f header s
  = match f s with
    | (Return a, s') => (Return (Served a), s')
    | (Raise e, s') => (Raise e, s')
    end.
Proof.
  unfold token_matches. intros [N E]%andb_true_iff AT.
  apply negb_true_iff in N. rewrite require_ingest_token_run, N, E.
  apply String.eqb_eq in E. by rewrite E, AT.
Qed.

(** ** Requests in sequence *)

(** What [@require_auth] does to the state. *)
Lemma require_auth_state {A} (f : M A)
    (authorization : option (option string * option string)) (s : state) :
  snd (require_auth DASHBOARD_USER DASHBOARD_PASSWORD f authorization s) = s
  ∨ (credentials_match DASHBOARD_USER DASHBOARD_PASSWORD authorization = true
     ∧ snd (require_auth DASHBOARD_USER DASHBOARD_PASSWORD f authorization s)
       = snd (f s)).
Proof.
  destruct authorization as [[u p]|]; [|by left].
  rewrite require_auth_some, check_auth_run. unfold credentials_match.
  destruct (is_ascii (default "" u) && is_ascii DASHBOARD_USER); [|by left].
  destruct (String.eqb (default "" u) DASHBOARD_USER); [|by left].
  destruct (is_ascii (default "" p) && is_ascii DASHBOARD_PASSWORD);
    [|by left].
  destruct (String.eqb (default "" p) DASHBOARD_PASSWORD); [|by left].
  right. split; [done|]. by destruct (f s) as [[a|e] s'].
Qed.

(** An accepted request appends one well-formed row and empties the
    cache; any other leaves the state as it is. *)
Lemma submit_run (db : db_status) (now : Z) (data : json) (s : state) :
  (∃ m, submit float_of_str fromisoformat db now data s
        = (Return (400, m), s))
  ∨ ∃ r, submit float_of_str fromisoformat db now data s
         = (Return (200, DataRecorded),
            {| table := table s ++ [r]; cache := ∅ |})
         ∧ valid_row r.
Proof.
  destruct (submit float_of_str fromisoformat db now data s) as [o s'] eqn:E.
  destruct (submit_keeps_state_on_400 _ _ _ _ _ _ _ _ E)
    as (code & m & -> & [[-> ->]|(-> & -> & r0 & Hs')]); [eauto|].
  destruct (submit_appends_validated _ _ _ _ _ _ _ _ E)
    as [->|(r & kvs & _ & _ & -> & V1 & V2 & V3 & Ab & _)].
  - apply (f_equal (λ x, length (table x))) in Hs'. cbn in Hs'.
    rewrite length_app in Hs'. cbn in Hs'. lia.
  - right. exists r. split; [reflexivity|]. split.
    + unfold any_present. unfold all_absent in Ab.
      by destruct (r_t1 r), (r_t2 r), (r_t3 r).
    + intros sen v C.
      destruct sen; cbn [column] in C; rewrite C in *;
        eapply validate_temp_in_range; eassumption.
Qed.

Lemma health_check_body (db : db_status) (now : Z) (s : state) :
  catchM
    (conn ← get_db_connection db;
     rows ← execute_select db (λ tbl, tbl);
     let count := Z.of_nat (length rows) in
     _ ← close conn;
     mret (Healthy count now))
    (λ e, mret (Unhealthy e now)) s
  = (Return match db with
            | ConnectFails | ExecuteFails => Unhealthy OperationalError now
            | _ => Healthy (Z.of_nat (length (table s))) now
            end, s).
Proof. by destruct db. Qed.

(** The three ways a request can go. *)
Lemma handle_cases (s : state) (q : http_request) :
  (handle float_of_str fromisoformat int_of_str INGEST_TOKEN DASHBOARD_USER
     DASHBOARD_PASSWORD s q = s
   ∧ recorded float_of_str fromisoformat INGEST_TOKEN s q = false)
  ∨ (∃ read,
       handle float_of_str fromisoformat int_of_str INGEST_TOKEN
         DASHBOARD_USER DASHBOARD_PASSWORD s q = serve s read
       ∧ recorded float_of_str fromisoformat INGEST_TOKEN s q = false
       ∧ authorised INGEST_TOKEN DASHBOARD_USER DASHBOARD_PASSWORD q = true)
  ∨ (∃ r,
       handle float_of_str fromisoformat int_of_str INGEST_TOKEN
         DASHBOARD_USER DASHBOARD_PASSWORD s q
       = {| table := table s ++ [r]; cache := ∅ |}
       ∧ valid_row r
       ∧ recorded float_of_str fromisoformat INGEST_TOKEN s q = true
       ∧ authorised INGEST_TOKEN DASHBOARD_USER DASHBOARD_PASSWORD q = true).
Proof.
  destruct q as [db now header data|db clock now a args|db now a args
                |db a|db now a]; cbn [handle recorded authorised].
  - unfold submit_guarded, token_matches. rewrite require_ingest_token_run.
    destruct (String.eqb (default "" header) ""); [by left|].
    destruct (is_ascii (default "" header) && is_ascii INGEST_TOKEN);
      [|by left].
    destruct (String.eqb (default "" header) INGEST_TOKEN); [|by left].
    destruct (submit_run db now data s) as [[m ->]|(r & -> & V)].
    + by left.
    + right; right. by exists r.
  - unfold get_data.
    destruct (require_auth_state
      (get_recent_readings db clock now
         (args_get_int int_of_str args "hours" 24)
         (args_get_int int_of_str args "limit" 1000)) a s) as [->|[H ->]];
      [by left|].
    right; left.
    by exists (GetData db clock now (args_get_int int_of_str args "hours" 24)
                 (args_get_int int_of_str args "limit" 1000)).
  - unfold get_stats.
    destruct (require_auth_state
      (get_statistics db now (args_get_int int_of_str args "hours" 24)) a s)
      as [->|[H ->]]; [by left|].
    right; left.
    by exists (GetStats db now (args_get_int int_of_str args "hours" 24)).
  - unfold get_debug_info_guarded.
    destruct (require_auth_state (get_debug_info db) a s) as [->|[H ->]];
      [by left|].
    right; left. by exists (GetDebug db).
  - left. split; [|reflexivity]. unfold health_check.
    match goal with
    | |- snd (require_auth _ _ ?f a s) = s =>
        destruct (require_auth_state f a s) as [->|[_ ->]]; [done|]
    end.
    by rewrite health_check_body.
Qed.

(** X22: a request that does not carry the configured token (for
    [/submit]) or the configured credentials (for the [/api] routes)
    changes neither the table nor the cache. *)
Theorem unauthorised_request_changes_nothing (s : state) (q : http_request) :
  authorised INGEST_TOKEN DASHBOARD_USER DASHBOARD_PASSWORD q = false →
  handle float_of_str fromisoformat int_of_str INGEST_TOKEN DASHBOARD_USER
    DASHBOARD_PASSWORD s q = s.
Proof.
  intros H.
  destruct (handle_cases s q)
    as [[E _]|[(read & _ & _ & A)|(r & _ & _ & _ & A)]]; [exact E| |];
    congruence.
Qed.

Lemma requests_append (qs : list http_request) (s : state) :
  ∃ added,
    table (foldl (handle float_of_str fromisoformat int_of_str INGEST_TOKEN
                    DASHBOARD_USER DASHBOARD_PASSWORD) s qs)
    = table s ++ added
    ∧ Z.of_nat (length added)
      = count_recorded float_of_str fromisoformat int_of_str INGEST_TOKEN
          DASHBOARD_USER DASHBOARD_PASSWORD s qs
    ∧ Forall valid_row added.
Proof.
  revert s. induction qs as [|q qs IH]; intros s.
  - exists []. by rewrite app_nil_r.
  - cbn [foldl count_recorded].
    destruct (IH (handle float_of_str fromisoformat int_of_str INGEST_TOKEN
                    DASHBOARD_USER DASHBOARD_PASSWORD s q))
      as (added & T & N & V).
    rewrite T, <- N.
    destruct (handle_cases s q)
      as [[-> ->]|[(read & -> & -> & _)|(r & -> & Vr & -> & _)]].
    + exists added. split; [done|]. split; [lia|done].
    + exists added. rewrite serve_table. split; [done|]. split; [lia|done].
    + exists (r :: added). cbn [table]. rewrite <- app_assoc.
      split; [done|]. split; [cbn [length]; lia|by constructor].
Qed.

(** X23: the table is append-only under any sequence of requests: the
    rows stored before stay, unchanged and in place; the rows added after
    them are as many as the requests answered "Data recorded
    successfully", and each has a temperature and only temperatures
    between -10 and 80. *)
Theorem requests_only_append (qs : list http_request) (s : state) :
  ∃ added,
    table (foldl (handle float_of_str fromisoformat int_of_str INGEST_TOKEN
                    DASHBOARD_USER DASHBOARD_PASSWORD) s qs)
    = table s ++ added
    ∧ Z.of_nat (length added)
      = count_recorded float_of_str fromisoformat int_of_str INGEST_TOKEN
          DASHBOARD_USER DASHBOARD_PASSWORD s qs
    ∧ Forall valid_row added.
Proof. apply requests_append. Qed.


(** X25: with SQLite up and the configured ASCII credentials,
    [/api/health] answers after any sequence of requests that it is
    healthy, and its total is the number of rows stored before the
    sequence plus the number of requests answered "Data recorded
    successfully". *)
Theorem health_counts_recorded (qs : list http_request) (s : state) (now : Z)
    (authorization : option (option string * option string)) :
  credentials_match DASHBOARD_USER DASHBOARD_PASSWORD authorization = true →
  is_ascii DASHBOARD_USER = true → is_ascii DASHBOARD_PASSWORD = true →
  fst (health_check DASHBOARD_USER DASHBOARD_PASSWORD DbUp now authorization
         (foldl (handle float_of_str fromisoformat int_of_str INGEST_TOKEN
                   DASHBOARD_USER DASHBOARD_PASSWORD) s qs))
  = Return (Served (Healthy
      (Z.of_nat (length (table s))
       + count_recorded float_of_str fromisoformat int_of_str INGEST_TOKEN
           DASHBOARD_USER DASHBOARD_PASSWORD s qs) now)).
Proof.
  intros H AU AP. destruct authorization as [[u p]|]; [|discriminate].
  apply andb_true_iff in H as [U%String.eqb_eq P%String.eqb_eq].
  unfold health_check.
  rewrite require_auth_some, check_auth_run, U, P, AU, AP, !String.eqb_refl.
  cbn [andb]. rewrite health_check_body. cbn [fst].
  destruct (requests_append qs s) as (added & -> & <- & _).
  rewrite length_app. do 3 f_equal. lia.
Qed.

End ApplicationProperties.


(** ** Well-formed states *)




(** * Concrete runs *)




Lemma flag_true_iff_literal_true_witness :
  ∃ r, table {| table := [debug_row]; cache := ∅ |}
       = table empty_state ++ [r]
    ∧ ∀ f : flag,
        (flag_column f r = Some true ↔
           raw debug_bundle (flag_key f) = JStr "true")
        ∧ (flag_column f r = Some false ↔
             truthy debug_bundle = true
             ∧ raw debug_bundle (flag_key f) ≠ JStr "true")
        ∧ (flag_column f r = None ↔ truthy debug_bundle = false).
Proof.
  exact (flag_true_iff_literal_true iso_literals DbUp noon
           (Some (43 # 2)%Q) None None JNull JNull JNull debug_bundle
           empty_state {| table := [debug_row]; cache := ∅ |} eq_refl).
Defined.


Lemma failed_append_keeps_cache_witness :
  add_reading iso_literals CommitFails noon (Some 22%Q) None None
    JNull JNull JNull JNull cached_state
  = (Raise OperationalError, cached_state)
  ∧ cache cached_state !! cache_key 24 1000
    = Some ([to_reading (bare_row 1 noon (Some 22%Q))], 500%Q)
  ∧ cache cached_state = cache cached_state
  ∧ table cached_state = table cached_state.
Proof.
  assert (A : add_reading iso_literals CommitFails noon (Some 22%Q) None None
                JNull JNull JNull JNull cached_state
              = (Raise OperationalError, cached_state)) by reflexivity.
  split; [exact A|]. split; [reflexivity|].
  exact (proj1 (failed_append_keeps_cache float_literals iso_literals
                  CommitFails noon (Some 22%Q) None None JNull JNull JNull
                  JNull JNull cached_state)
           OperationalError cached_state A).
Defined.

Lemma format_timestamp_falls_back_witness :
  _format_timestamp iso_literals noon (JStr "2025-09-11T17:25:05")
  = Return 63893208305
  ∧ _format_timestamp iso_literals noon (JStr "yesterday") = Return noon
  ∧ _format_timestamp iso_literals noon JNull = Return noon.
Proof.
  destruct (format_timestamp_falls_back iso_literals noon
              (JStr "2025-09-11T17:25:05")) as (_ & _ & _ & _ & P & _).
  destruct (format_timestamp_falls_back iso_literals noon
              (JStr "yesterday")) as (_ & _ & _ & U & _).
  destruct (format_timestamp_falls_back iso_literals noon JNull)
    as (_ & N & _).
  split; [|split].
  - apply (P "2025-09-11T17:25:05"); [reflexivity|discriminate|discriminate|
                                       reflexivity].
  - apply (U "yesterday"); reflexivity.
  - apply N. left. reflexivity.
Defined.

(** The spec's scenarios, run. *)

Example accepted_with_server_timestamp :
  submit float_literals iso_literals DbUp noon
    (JDict [("t1", JFloat (FFinite 25)); ("t2", JNull); ("t3", JNull);
            ("ts", JNull)]) empty_state
  = (Return (200, DataRecorded),
     {| table := [bare_row 1 noon (Some 25%Q)]; cache := ∅ |}).
Proof. reflexivity. Qed.

Example later_sample_is_current :
  fst (get_statistics DbUp (noon + 3600) 2
         {| table := [bare_row 1 noon (Some 20%Q);
                      bare_row 2 (noon + 1800) (Some 60%Q)];
            cache := ∅ |})
  = Return {| stats_t1 :=
                Some {| s_min := {| val := 20; time := (12, 0) |};
                        s_max := {| val := 60; time := (12, 30) |};
                        s_avg := round2 40;
                        s_current := Some 60%Q |};
              stats_t2 := None;
              stats_t3 := None |}.
Proof. reflexivity. Qed.


(** Two statistics requests for the same window, two seconds apart and
    with no write in between: nothing was cached by the first, and the
    second answers differently, the only reading having left the
    window. *)
Lemma statistics_recomputed_within_timeout :
  table only_plain_reading = [bare_row 1 noon (Some 22%Q)]
  ∧ cache only_plain_reading = ∅
  ∧ get_statistics DbUp (noon + 3599) 1 only_plain_reading
    = (Return {| stats_t1 :=
                   Some {| s_min := {| val := 22; time := (12, 0) |};
                           s_max := {| val := 22; time := (12, 0) |};
                           s_avg := round2 22;
                           s_current := Some 22%Q |};
                 stats_t2 := None;
                 stats_t3 := None |},
       only_plain_reading)
  ∧ get_statistics DbUp (noon + 3601) 1 only_plain_reading
    = (Return {| stats_t1 := None; stats_t2 := None; stats_t3 := None |},
       only_plain_reading).
Proof. repeat split; reflexivity. Qed.


Lemma submit_keeps_rows_valid_witness :
  Forall valid_row (table after_plain_reading).
Proof.
  apply (submit_keeps_rows_valid float_literals iso_literals DbUp
           (noon + 1800) plain_payload after_debug_reading).
  apply (submit_keeps_rows_valid float_literals iso_literals DbUp noon
           debug_payload empty_state).
  constructor.
Defined.





Lemma other_cache_entries_untouched_witness :
  cache (snd (get_recent_readings DbUp 510%Q (noon + 70) 1 1000 cached_state))
    !! cache_key 24 1000
  = cache cached_state !! cache_key 24 1000
  ∧ table (snd (get_recent_readings DbUp 510%Q (noon + 70) 1 1000
                  cached_state))
    = table cached_state.
Proof.
  apply (other_cache_entries_untouched DbUp 510%Q (noon + 70) 1 1000 24 1000
           cached_state).
  discriminate.
Defined.

Lemma reading_without_wake_cause_keeps_debug_info_witness :
  fst (get_debug_info DbUp after_plain_reading)
  = fst (get_debug_info DbUp after_debug_reading).
Proof.
  apply (reading_without_wake_cause_keeps_debug_info iso_literals DbUp DbUp
           (noon + 1800) (Some 22%Q) None None JNull JNull JNull JNull
           after_debug_reading after_plain_reading); reflexivity.
Defined.


Lemma submit_reads_seven_members_witness :
  submit float_literals iso_literals DbUp noon
    (JDict [("t1", JInt 22)]) empty_state
  = submit float_literals iso_literals DbUp noon
      (JDict [("t1", JInt 22); ("alert", JStr "low")]) empty_state.
Proof.
  apply (submit_reads_seven_members float_literals iso_literals DbUp noon
           [("t1", JInt 22)] [("t1", JInt 22); ("alert", JStr "low")]
           empty_state).
  intros k Hk. unfold submit_members in Hk.
  repeat (apply elem_of_cons in Hk as [->|Hk]; [reflexivity|]).
  by apply elem_of_nil in Hk.
Defined.

Lemma secret_is_stable_witness :
  _load_or_create_secret "/srv/soil" ∅ (λ _, "other") "SOIL_MONITOR_INGEST_TOKEN"
    ".ingest_token" 32
    (snd (_load_or_create_secret "/srv/soil" ∅ (λ _, "s3cret")
            "SOIL_MONITOR_INGEST_TOKEN" ".ingest_token" 32 ∅))
  = _load_or_create_secret "/srv/soil" ∅ (λ _, "s3cret")
      "SOIL_MONITOR_INGEST_TOKEN" ".ingest_token" 32 ∅.
Proof.
  apply (secret_is_stable "/srv/soil" ∅ (λ _, "s3cret") (λ _, "other")
           "SOIL_MONITOR_INGEST_TOKEN" ".ingest_token" 32 32 ∅);
    [reflexivity|discriminate].
Defined.

Lemma secret_from_environment_witness :
  _load_or_create_secret "/srv/soil" {[ "SOIL_MONITOR_PASSWORD" := "  " ]}
    (λ _, "s3cret") "SOIL_MONITOR_PASSWORD" ".dashboard_password" 24 ∅
  = (strip "  ", ∅)
  ∧ (strip "  " = ""
     ↔ forallb isspace (list_ascii_of_string "  ") = true).
Proof.
  apply (secret_from_environment "/srv/soil"
           {[ "SOIL_MONITOR_PASSWORD" := "  " ]} (λ _, "s3cret")
           "SOIL_MONITOR_PASSWORD" ".dashboard_password" 24 ∅ "  ");
    [apply lookup_singleton_eq|discriminate].
Defined.

Lemma init_database_completes_witness :
  ∃ cols',
    columns (snd (init_database DbUp legacy_schema)) = Some cols'
    ∧ indexed (snd (init_database DbUp legacy_schema)) = true
    ∧ (∀ c, c ∈ battery_columns ++ debug_columns →
            has_column (fst c) cols' = true)
    ∧ (∀ cols, columns legacy_schema = Some cols →
         ∃ added, cols' = cols ++ added
                  ∧ added ⊆ battery_columns ++ debug_columns)
    ∧ (columns legacy_schema = None → cols' = created_columns).
Proof.
  apply (init_database_completes DbUp legacy_schema
           (snd (init_database DbUp legacy_schema))).
  by vm_compute.
Defined.

Lemma init_database_idempotent_witness :
  init_database DbUp (snd (init_database DbUp legacy_schema))
  = (Return tt, snd (init_database DbUp legacy_schema)).
Proof.
  apply (init_database_idempotent DbUp legacy_schema
           (snd (init_database DbUp legacy_schema))).
  by vm_compute.
Defined.

Lemma require_auth_refuses_witness :
  require_auth "admin" "pw" (get_debug_info DbUp) admin_wrong
    after_debug_reading
  = (Return (Unauthorized AuthenticationRequired), after_debug_reading)
  ∨ require_auth "admin" "pw" (get_debug_info DbUp) admin_wrong
      after_debug_reading
    = (Raise TypeError, after_debug_reading).
Proof.
  apply (require_auth_refuses "admin" "pw" (get_debug_info DbUp) admin_wrong
           after_debug_reading).
  reflexivity.
Defined.

Lemma require_auth_admits_witness :
  require_auth "admin" "pw" (get_debug_info DbUp) admin_pw
    after_debug_reading
  = match get_debug_info DbUp after_debug_reading with
    | (Return a, s') => (Return (Served a), s')
    | (Raise e, s') => (Raise e, s')
    end.
Proof.
  apply (require_auth_admits "admin" "pw" (get_debug_info DbUp) admin_pw
           after_debug_reading); reflexivity.
Defined.

Lemma require_ingest_token_refuses_witness :
  require_ingest_token "s3cret"
    (submit float_literals iso_literals DbUp noon plain_payload)
    (Some "guess") empty_state
  = (Return (Unauthorized IngestTokenRequired), empty_state)
  ∨ require_ingest_token "s3cret"
      (submit float_literals iso_literals DbUp noon plain_payload)
      (Some "guess") empty_state
    = (Raise TypeError, empty_state).
Proof.
  apply (require_ingest_token_refuses "s3cret"
           (submit float_literals iso_literals DbUp noon plain_payload)
           (Some "guess") empty_state).
  reflexivity.
Defined.

Lemma require_ingest_token_admits_witness :
  require_ingest_token "s3cret"
    (submit float_literals iso_literals DbUp noon plain_payload)
    (Some "s3cret") empty_state
  = match submit float_literals iso_literals DbUp noon plain_payload
            empty_state with
    | (Return a, s') => (Return (Served a), s')
    | (Raise e, s') => (Raise e, s')
    end.
Proof.
  apply (require_ingest_token_admits "s3cret"
           (submit float_literals iso_literals DbUp noon plain_payload)
           (Some "s3cret") empty_state); reflexivity.
Defined.

Lemma unauthorised_request_changes_nothing_witness :
  handle float_literals iso_literals int_literals "s3cret" "admin" "pw"
    cached_state (PostSubmit DbUp (noon + 60) None plain_payload)
  = cached_state.
Proof.
  apply (unauthorised_request_changes_nothing float_literals iso_literals
           int_literals "s3cret" "admin" "pw" cached_state
           (PostSubmit DbUp (noon + 60) None plain_payload)).
  reflexivity.
Defined.


Lemma health_counts_recorded_witness :
  fst (health_check "admin" "pw" DbUp (noon + 180) admin_pw
         (foldl (handle float_literals iso_literals int_literals "s3cret"
                   "admin" "pw") empty_state three_requests))
  = Return (Served (Healthy
      (Z.of_nat (length (table empty_state))
       + count_recorded float_literals iso_literals int_literals "s3cret"
           "admin" "pw" empty_state three_requests) (noon + 180)))
  ∧ count_recorded float_literals iso_literals int_literals "s3cret"
      "admin" "pw" empty_state three_requests = 1.
Proof.
  split; [|by vm_compute].
  apply (health_counts_recorded float_literals iso_literals int_literals
           "s3cret" "admin" "pw" three_requests empty_state (noon + 180)
           admin_pw); reflexivity.
Defined.
